(** * ignite: event filters, event lists and removable handles

    A shallow embedding of [ignite/engine/events.py] and of the two
    collective stubs of [ignite/distributed/comp_models/horovod.py].

    Python objects are modelled by the small universe [pyobj]; a raised
    exception is the [Raise] branch of [result]; objects that the code mutates
    in place ([EventsList._events], the engine behind a weak reference) live
    in finite maps from addresses to their current state. *)

From stdpp Require Import gmap strings list.
From Stdlib Require Import ZArith Lia.

Local Open Scope string_scope.
Local Open Scope list_scope.
Local Open Scope Z_scope.

(** ** Exceptions and results *)

Inductive exn : Type :=
  | ValueError (msg : string)
  | TypeError (msg : string)
  | AttributeError (msg : string)
  | IndexError (msg : string)
  | ZeroDivisionError (msg : string)
  | NotImplementedError (msg : string).

Inductive result (A : Type) : Type :=
  | Ok (a : A)
  | Raise (e : exn).

Arguments Ok {A} a.
Arguments Raise {A} e.

Global Instance result_ret : MRet result := @Ok.

Global Instance result_bind : MBind result := fun A B k r =>
  match r with
  | Ok a => k a
  | Raise e => Raise e
  end.

Definition is_ValueError {A : Type} (r : result A) : bool :=
  match r with
  | Raise (ValueError _) => true
  | _ => false
  end.

(** ** Events with filters *)

Section EventModel.

(** The training engine is opaque to this module: filters receive it and
    pass it on. *)
Context {Engine : Type}.

(** A callable object: the parameter names of its signature and what a
    call [f(engine, event)] yields. *)
Record callable : Type := Callable {
  fn_params : list string;
  fn_call : Engine → Z → result bool
}.

(** Arguments as [__call__] can receive them. [PyCallable f] is any object
    for which [callable] holds (a function, a closure, an object with a
    [__call__] method); [PyObject cls] is an instance of any other class
    [cls] (a float, a list, ...), neither callable nor registered as
    [numbers.Integral]. *)
Inductive pyobj : Type :=
  | PyNone
  | PyBool (b : bool)
  | PyInt (z : Z)
  | PyStr (s : string)
  | PyObject (cls : string)
  | PyCallable (f : callable).

Definition is_not_None (o : pyobj) : bool :=
  match o with
  | PyNone => false
  | _ => true
  end.

(** [callable(o)] *)
Definition is_callable (o : pyobj) : bool :=
  match o with
  | PyCallable _ => true
  | _ => false
  end.

(** [isinstance(o, numbers.Integral)], with the integer it denotes:
    [bool] is a subclass of [int]. *)
Definition as_Integral (o : pyobj) : option Z :=
  match o with
  | PyInt z => Some z
  | PyBool b => Some (if b then 1 else 0)
  | _ => None
  end.

(** [isinstance(o, numbers.Integral) and o > 0] *)
Definition Integral_gt_0 (o : pyobj) : bool :=
  match as_Integral o with
  | Some z => bool_decide (0 < z)
  | None => false
  end.

(** [_check_signature] lives in [ignite/engine/utils.py]: it binds the
    given positional arguments to the signature of [fn] and raises
    [ValueError] when they do not fit. *)
Variable _check_signature : callable → string → list string → result unit.

Record CallableEventWithFilter : Type := Event {
  filter : callable;
  _value_ : string;
  _name_ : option string
}.

(** What [hasattr(self, "_value_")] and [hasattr(self, "_name_")] see when
    [__init__] starts: nothing on a plain instance, both attributes on an
    [Enum] member, whose metaclass sets them before it calls [__init__]. *)
Record preset : Type := Preset {
  pre_value : option string;
  pre_name : option string
}.

Definition default_event_filter : callable :=
  {| fn_params := ["engine"; "event"];
     fn_call := fun _ _ => Ok true |}.

Definition every_event_filter (every : Z) : callable :=
  {| fn_params := ["engine"; "event"];
     fn_call := fun _ event =>
       if bool_decide (every = 0)
       then Raise (ZeroDivisionError "integer division or modulo by zero")
       else if bool_decide (event `mod` every = 0) then Ok true
       else Ok false |}.

Definition once_event_filter (once : Z) : callable :=
  {| fn_params := ["engine"; "event"];
     fn_call := fun _ event =>
       if bool_decide (event = once) then Ok true else Ok false |}.

Definition __init__ (self : preset) (value : string)
    (event_filter : option callable) (name : option string)
    : CallableEventWithFilter :=
  {| filter := match event_filter with
               | None => default_event_filter
               | Some f => f
               end;
     _value_ := match pre_value self with
                | Some v => v
                | None => value
                end;
     _name_ := match pre_name self with
               | Some n => Some n
               | None => name
               end |}.

(** [CallableEventWithFilter(value, event_filter, name)] *)
Definition new_event (value : string) (event_filter : option callable)
    (name : option string) : CallableEventWithFilter :=
  __init__ (Preset None None) value event_filter name.

(** A member [NAME = "value"] of an [EventEnum] subclass. *)
Definition enum_member (member_name value : string)
    : CallableEventWithFilter :=
  __init__ (Preset (Some value) (Some member_name)) value None None.

(** The [name] and [value] properties. *)
Definition name (self : CallableEventWithFilter) : result string :=
  match _name_ self with
  | Some n => Ok n
  | None =>
      Raise (AttributeError
        "'CallableEventWithFilter' object has no attribute '_name_'")
  end.

Definition value (self : CallableEventWithFilter) : string := _value_ self.

(** The integer behind an argument that passed the [Integral] test. *)
Definition int_value (o : pyobj) : Z := default 0 (as_Integral o).

Definition as_callable (o : pyobj) : option callable :=
  match o with
  | PyCallable f => Some f
  | _ => None
  end.

Definition __call__ (self : CallableEventWithFilter)
    (event_filter every once : pyobj) : result CallableEventWithFilter :=
  if negb (xorb (xorb (is_not_None event_filter) (is_not_None every))
                (is_not_None once))
  then Raise (ValueError
         "Only one of the input arguments should be specified")
  else if is_not_None event_filter && negb (is_callable event_filter)
  then Raise (TypeError "Argument event_filter should be a callable")
  else if is_not_None every && negb (Integral_gt_0 every)
  then Raise (ValueError
         "Argument every should be integer and greater than zero")
  else if is_not_None once && negb (Integral_gt_0 once)
  then Raise (ValueError "Argument every should be integer and positive")
  else
    let event_filter :=
      if is_not_None every then
        if bool_decide (int_value every = 1) then PyNone
        else PyCallable (every_event_filter (int_value every))
      else event_filter in
    let event_filter :=
      if is_not_None once
      then PyCallable (once_event_filter (int_value once))
      else event_filter in
    match as_callable event_filter with
    | Some f => _check_signature f "event_filter" ["engine"; "event"]
    | None => Ok tt
    end ;;
    n ← name self;
    Ok (new_event (value self) (as_callable event_filter) (Some n)).

(** How many of the three arguments of [__call__] are given. *)
Definition specified (event_filter every once : pyobj) : nat :=
  length (List.filter is_not_None [event_filter; every; once]).

(** *** Comparison, hashing *)

(** Right operands of [==] and [|]: an event (an [Events] member is one),
    a string, an [EventsList] by its address, or an instance of another
    class. *)
Inductive operand : Type :=
  | OEvent (e : CallableEventWithFilter)
  | OStr (s : string)
  | OEventsList (l : nat)
  | OOther (cls : string).

Definition __eq__ (self : CallableEventWithFilter) (other : operand)
    : result bool :=
  match other with
  | OEvent o =>
      n ← name self;
      m ← name o;
      Ok (bool_decide (n = m))
  | OStr s =>
      n ← name self;
      Ok (bool_decide (n = s))
  | _ => Raise (NotImplementedError EmptyString)
  end.

(** The built-in [hash] on strings: salted per process, a function of the
    string within one. *)
Variable hash : string → Z.

Definition __hash__ (self : CallableEventWithFilter) : result Z :=
  match _name_ self with
  | Some n => Ok (hash n)
  | None =>
      Raise (AttributeError
        "'CallableEventWithFilter' object has no attribute '_name_'")
  end.

(** *** EventsList *)

(** The store of [EventsList] objects: address to current [_events]. *)
Abbreviation store := (gmap nat (list CallableEventWithFilter)).

(** [self._events] *)
Definition _events (self : nat) (σ : store) : list CallableEventWithFilter :=
  default [] (σ !! self).

(** [EventsList()]: a new object with [_events = []]. *)
Definition EventsList__init__ (σ : store) : nat * store :=
  let self := fresh (dom σ) in (self, <[self := []]> σ).

Definition type_repr (o : operand) : string :=
  match o with
  | OEvent _ => "<class 'ignite.engine.events.CallableEventWithFilter'>"
  | OStr _ => "<class 'str'>"
  | OEventsList _ => "<class 'ignite.engine.events.EventsList'>"
  | OOther cls => cls
  end.

Definition _append (self : nat) (event : operand) (σ : store)
    : result unit * store :=
  match event with
  | OEvent e => (Ok tt, <[self := _events self σ ++ [e]]> σ)
  | _ =>
      (Raise (TypeError
         ("Argument event should be Events or CallableEventWithFilter, got: "
          +:+ type_repr event)), σ)
  end.

(** [self._events[item]] for an integer [item]: negative indices count
    from the end. *)
Definition EventsList__getitem__ (self : nat) (item : Z) (σ : store)
    : result CallableEventWithFilter :=
  let es := _events self σ in
  let i := if bool_decide (item < 0) then item + Z.of_nat (length es)
           else item in
  if bool_decide (0 ≤ i)
  then match es !! Z.to_nat i with
       | Some e => Ok e
       | None => Raise (IndexError "list index out of range")
       end
  else Raise (IndexError "list index out of range").

(** The elements [iter(self._events)] yields, in order. *)
Definition EventsList__iter__ (self : nat) (σ : store)
    : list CallableEventWithFilter :=
  _events self σ.

Definition EventsList__len__ (self : nat) (σ : store) : nat :=
  length (_events self σ).

Definition EventsList__or__ (self : nat) (other : operand) (σ : store)
    : result nat * store :=
  match _append self other σ with
  | (Ok _, σ') => (Ok self, σ')
  | (Raise x, σ') => (Raise x, σ')
  end.

(** [CallableEventWithFilter.__or__] and [Events.__or__] have the same
    body: [EventsList() | self | other]. *)
Definition __or__ (self : CallableEventWithFilter) (other : operand)
    (σ : store) : result nat * store :=
  let '(l, σ) := EventsList__init__ σ in
  match EventsList__or__ l (OEvent self) σ with
  | (Ok l, σ) => EventsList__or__ l other σ
  | (Raise x, σ) => (Raise x, σ)
  end.

(** [acc | o1 | ... | ok] for an [EventsList] [acc]. *)
Fixpoint or_rest (acc : nat) (rest : list operand) (σ : store)
    : result nat * store :=
  match rest with
  | [] => (Ok acc, σ)
  | o :: rest =>
      match EventsList__or__ acc o σ with
      | (Ok acc, σ) => or_rest acc rest σ
      | (Raise x, σ) => (Raise x, σ)
      end
  end.

(** The expression [e1 | e2 | ... | en], which associates to the left:
    the first [|] is the event's, each later one the list's. *)
Definition or_expr (e1 : CallableEventWithFilter) (e2 : operand)
    (rest : list operand) (σ : store) : result nat * store :=
  match __or__ e1 e2 σ with
  | (Ok l, σ) => or_rest l rest σ
  | (Raise x, σ) => (Raise x, σ)
  end.

(** *** RemovableEventHandle *)

(** Handlers are opaque; the engine's registry is behind its two methods,
    defined in [ignite/engine/engine.py]. *)
Class EngineMethods (Handler : Type) : Type := {
  has_event_handler : Engine → Handler → operand → bool;
  remove_event_handler : Engine → Handler → operand → result unit * Engine
}.

Context {Handler : Type} `{!EngineMethods Handler}.

(** The objects alive at some point of the run. A weak reference is an
    address; calling it yields the object while it is alive and [None]
    afterwards. *)
Record world : Type := World {
  handlers : gmap nat Handler;
  engines : gmap nat Engine;
  events_lists : store
}.

Record RemovableEventHandle : Type := Handle {
  event_name : operand;
  handler : nat;
  engine : nat
}.

(** [if engine.has_event_handler(handler, e):
       engine.remove_event_handler(handler, e)] *)
Definition remove_if_present (h : Handler) (e : operand) (eng : Engine)
    : result unit * Engine :=
  if has_event_handler eng h e then remove_event_handler eng h e
  else (Ok tt, eng).

Fixpoint remove_each (h : Handler) (es : list CallableEventWithFilter)
    (eng : Engine) : result unit * Engine :=
  match es with
  | [] => (Ok tt, eng)
  | e :: es =>
      match remove_if_present h (OEvent e) eng with
      | (Ok _, eng) => remove_each h es eng
      | (Raise x, eng) => (Raise x, eng)
      end
  end.

(** [handler = self.handler()] and [engine = self.engine()] look the two
    addresses up; the engine's methods act on the engine alone. *)
Definition remove (self : RemovableEventHandle) (w : world)
    : result unit * world :=
  match handlers w !! handler self, engines w !! engine self with
  | Some h, Some eng =>
      let '(r, eng) :=
        match event_name self with
        | OEventsList l => remove_each h (_events l (events_lists w)) eng
        | e => remove_if_present h e eng
        end in
      (r, World (handlers w) (<[engine self := eng]> (engines w))
                (events_lists w))
  | _, _ => (Ok tt, w)
  end.

(** The events a handle was registered for: the one event, or the
    elements of the list at the time of the call. *)
Definition registered (self : RemovableEventHandle) (w : world)
    : list operand :=
  match event_name self with
  | OEventsList l => OEvent <$> _events l (events_lists w)
  | e => [e]
  end.

(** One pass over the registered events, as a relation between the engine
    before and the outcome: an event under which the engine does not have
    the handler is skipped, one under which it has it is removed from, and
    an exception of the engine ends the pass. *)
Inductive removal (h : Handler)
    : list operand → Engine → result unit * Engine → Prop :=
  | removal_done eng :
      removal h [] eng (Ok tt, eng)
  | removal_skip e es eng out :
      has_event_handler eng h e = false →
      removal h es eng out →
      removal h (e :: es) eng out
  | removal_step e es eng eng' out :
      has_event_handler eng h e = true →
      remove_event_handler eng h e = (Ok tt, eng') →
      removal h es eng' out →
      removal h (e :: es) eng out
  | removal_raise e es eng eng' x :
      has_event_handler eng h e = true →
      remove_event_handler eng h e = (Raise x, eng') →
      removal h (e :: es) eng (Raise x, eng').

End EventModel.

(** The built-in vocabulary: the members of [class Events(EventEnum)]. *)
Module Events.
Section Members.
Context {Engine : Type}.
Local Abbreviation member := (@enum_member Engine).

Definition EPOCH_STARTED := member "EPOCH_STARTED" "epoch_started".
Definition EPOCH_COMPLETED := member "EPOCH_COMPLETED" "epoch_completed".
Definition STARTED := member "STARTED" "started".
Definition COMPLETED := member "COMPLETED" "completed".
Definition ITERATION_STARTED :=
  member "ITERATION_STARTED" "iteration_started".
Definition ITERATION_COMPLETED :=
  member "ITERATION_COMPLETED" "iteration_completed".
Definition EXCEPTION_RAISED := member "EXCEPTION_RAISED" "exception_raised".
Definition GET_BATCH_STARTED :=
  member "GET_BATCH_STARTED" "get_batch_started".
Definition GET_BATCH_COMPLETED :=
  member "GET_BATCH_COMPLETED" "get_batch_completed".
Definition DATALOADER_STOP_ITERATION :=
  member "DATALOADER_STOP_ITERATION" "dataloader_stop_iteration".
Definition TERMINATE := member "TERMINATE" "terminate".
Definition TERMINATE_SINGLE_EPOCH :=
  member "TERMINATE_SINGLE_EPOCH" "terminate_single_epoch".
End Members.
End Events.

(** ** The Horovod computation model: the two collective stubs *)

Section Horovod.

(** [torch.Tensor] is opaque here. *)
Context {Tensor : Type}.

(** The attributes [__init__] and the base class's [_setup_attrs] leave on
    a model. *)
Record _HorovodDistModel : Type := HorovodDistModel {
  _backend : string;
  _local_rank : Z;
  _nproc_per_node : Z;
  _nnodes : Z;
  _node : Z
}.

Definition _do_all_reduce (self : _HorovodDistModel) (tensor : Tensor)
    (op : string) : result Tensor * _HorovodDistModel :=
  (Raise (NotImplementedError "TODO"), self).

Definition _do_all_gather (self : _HorovodDistModel) (tensor : Tensor)
    : result Tensor * _HorovodDistModel :=
  (Raise (NotImplementedError "TODO"), self).

End Horovod.

(** An operand that [_append] refuses. *)
Definition not_an_event {Engine : Type} (o : @operand Engine) : Prop :=
  ∀ e, o ≠ OEvent e.

(** ** State *)

(** [RuntimeError], next to the exceptions above. *)
Inductive error : Type :=
  | Builtin (e : exn)
  | RuntimeError (msg : string).

Inductive outcome (A : Type) : Type :=
  | Return (a : A)
  | Throw (e : error).

Arguments Return {A} a.
Arguments Throw {A} e.

(** Values of the attributes of a [State]. *)
#[warnings="-register-all"]
Inductive attr : Type :=
  | ANone
  | AInt (z : Z)
  | AStr (s : string)
  | ADict (items : list (string * attr))
  | AObject (cls : string).

Section StateModel.

Context {Engine : Type}.
Variable hash : string → Z.

(** [repr] of a callable, as [%r] prints it: it shows an address. *)
Variable repr_callable : @callable Engine → string.

(** What attribute lookup finds on the class [State] and on [object] when
    the instance has no such attribute: the methods, [event_to_attr],
    [__doc__], ... *)
Variable class_attrs : gmap string attr.

Definition __str__ (self : @CallableEventWithFilter Engine) : result string :=
  n ← name self;
  Ok ("<event=" +:+ n +:+ ", filter=" +:+ repr_callable (filter self)
      +:+ ">").

(** Keys a dictionary is asked for: an event, a string, or another
    hashable object with its hash. *)
Inductive key : Type :=
  | KEvent (e : @CallableEventWithFilter Engine)
  | KStr (s : string)
  | KObject (cls : string) (h : Z).

Definition key_operand (k : key) : @operand Engine :=
  match k with
  | KEvent e => OEvent e
  | KStr s => OStr s
  | KObject cls _ => OOther cls
  end.

Definition key_hash (k : key) : result Z :=
  match k with
  | KEvent e => __hash__ hash e
  | KStr s => Ok (hash s)
  | KObject _ h => Ok h
  end.

Definition key_str (k : key) : result string :=
  match k with
  | KEvent e => __str__ e
  | KStr s => Ok s
  | KObject cls _ => Ok cls
  end.

(** Lookup in a dictionary whose keys are events: an entry is compared with
    [==] only when its hash is the hash of the key asked for. *)
Fixpoint dict_lookup (d : list (@CallableEventWithFilter Engine * string))
    (h : Z) (k : key) : result (option string) :=
  match d with
  | [] => Ok None
  | (stored, v) :: d =>
      hs ← __hash__ hash stored;
      if bool_decide (hs = h) then
        b ← __eq__ stored (key_operand k);
        if b : bool then Ok (Some v) else dict_lookup d h k
      else dict_lookup d h k
  end.

(** [d.get(k)], through [hash(k)]; [k in d] and [d[k]] follow from it. *)
Definition dict_get (d : list (@CallableEventWithFilter Engine * string))
    (k : key) : result (option string) :=
  h ← key_hash k;
  dict_lookup d h k.

(** The class attribute [State.event_to_attr] as the class body sets it;
    registering custom events adds entries. *)
Definition event_to_attr : list (@CallableEventWithFilter Engine * string) :=
  [ (Events.GET_BATCH_STARTED, "iteration");
    (Events.GET_BATCH_COMPLETED, "iteration");
    (Events.ITERATION_STARTED, "iteration");
    (Events.ITERATION_COMPLETED, "iteration");
    (Events.EPOCH_STARTED, "epoch");
    (Events.EPOCH_COMPLETED, "epoch");
    (Events.STARTED, "epoch");
    (Events.COMPLETED, "epoch") ].

(** A [State] is its [__dict__]. *)
Abbreviation State := (gmap string attr).

Definition hasattr (self : State) (a : string) : bool :=
  bool_decide (is_Some (self !! a)) || bool_decide (is_Some (class_attrs !! a)).

Definition getattr (self : State) (a : string) : result attr :=
  match self !! a with
  | Some v => Ok v
  | None =>
      match class_attrs !! a with
      | Some v => Ok v
      | None =>
          Raise (AttributeError
            ("'State' object has no attribute '" +:+ a +:+ "'"))
      end
  end.

Definition _update_attrs
    (event_to_attr : list (@CallableEventWithFilter Engine * string))
    (self : State) : State :=
  foldl (fun self entry =>
           if hasattr self entry.2 then self else <[entry.2 := AInt 0]> self)
        self event_to_attr.

Definition State__init__
    (event_to_attr : list (@CallableEventWithFilter Engine * string))
    (kwargs : list (string * attr)) : State :=
  let self : State :=
    <["times" := ADict [("EPOCH_COMPLETED", ANone); ("COMPLETED", ANone)]]>
    (<["seed" := ANone]>
    (<["dataloader" := ANone]>
    (<["metrics" := ADict []]>
    (<["batch" := ANone]>
    (<["output" := ANone]>
    (<["max_epochs" := ANone]>
    (<["epoch_length" := ANone]>
    (<["epoch" := AInt 0]>
    (<["iteration" := AInt 0]> ∅))))))))) in
  let self := foldl (fun self kv => <[kv.1 := kv.2]> self) self kwargs in
  _update_attrs event_to_attr self.

(** [event_name not in State.event_to_attr] and
    [State.event_to_attr[event_name]] are the same lookup, made twice. *)
Definition get_event_attrib_value
    (event_to_attr : list (@CallableEventWithFilter Engine * string))
    (self : State) (event_name : key) : outcome attr :=
  match dict_get event_to_attr event_name with
  | Raise x => Throw (Builtin x)
  | Ok None =>
      match key_str event_name with
      | Ok s => Throw (RuntimeError ("Unknown event name '" +:+ s +:+ "'"))
      | Raise x => Throw (Builtin x)
      end
  | Ok (Some a) =>
      match getattr self a with
      | Ok v => Return v
      | Raise x => Throw (Builtin x)
      end
  end.

(** The event name a key stands for: the name of an event, or the string
    itself. *)
Definition names (k : key) (n : string) : Prop :=
  match k with
  | KEvent e => _name_ e = Some n
  | KStr s => s = n
  | KObject _ _ => False
  end.

(** The attribute a dictionary holds for an event name: that of the first
    entry whose key has this name. *)
Fixpoint attr_of_name (d : list (@CallableEventWithFilter Engine * string))
    (n : string) : option string :=
  match d with
  | [] => None
  | (stored, v) :: d =>
      if bool_decide (_name_ stored = Some n) then Some v
      else attr_of_name d n
  end.

(** Keys of a dictionary were hashed when they went in: they have names. *)
Definition named_keys (d : list (@CallableEventWithFilter Engine * string))
    : Prop :=
  Forall (fun entry => is_Some (_name_ entry.1)) d.

End StateModel.

(** ** Engines that keep their word *)

(** What a handle can rely on from an engine: removing succeeds where the
    handler is attached, the handler is then gone from under that event,
    and a removal under one event attaches nothing under another. *)
Class EngineLaws {Engine Handler : Type}
    `{!@EngineMethods Engine Handler} : Prop := {
  remove_where_attached : ∀ (eng : Engine) (h : Handler) e,
    has_event_handler eng h e = true →
    ∃ eng', remove_event_handler eng h e = (Ok tt, eng');
  removed_is_detached : ∀ (eng eng' : Engine) (h : Handler) e,
    remove_event_handler eng h e = (Ok tt, eng') →
    has_event_handler eng' h e = false;
  detached_stays : ∀ (eng eng' : Engine) (h : Handler) e e',
    has_event_handler eng h e = false →
    remove_event_handler eng h e' = (Ok tt, eng') →
    has_event_handler eng' h e = false
}.

(** ** The Horovod computation model: creation *)

Section HorovodCreate.

(** The state of the Horovod library and of the devices, and the keyword
    arguments of [__init__], are opaque. *)
Context {Hvd Kwargs : Type}.

(** [hvd.rank()]: the library raises [ValueError] before [hvd.init()]. *)
Variable hvd_rank : Hvd → result Z.

(** [_HorovodDistModel(do_init, **kwargs)]: [hvd.init], the device
    placement and the base class's [_setup_attrs]. *)
Variable new_model :
  bool → option Kwargs → Hvd → outcome _HorovodDistModel * Hvd.

Definition HOROVOD : string := "horovod".

Definition available_backends : list string := [HOROVOD].

Definition _get_hvd_rank (σ : Hvd) : result Z :=
  match hvd_rank σ with
  | Raise (ValueError _) => Ok (-1)
  | r => r
  end.

(** [has_hvd_support] is True wherever the class exists: the test
    [has_hvd_support and rank > -1] is the test on the rank. *)
Definition create_from_context (σ : Hvd)
    : outcome (option _HorovodDistModel) * Hvd :=
  match _get_hvd_rank σ with
  | Raise x => (Throw (Builtin x), σ)
  | Ok rank =>
      if negb (bool_decide (-1 < rank)) then (Return None, σ)
      else match new_model false None σ with
           | (Return m, σ) => (Return (Some m), σ)
           | (Throw x, σ) => (Throw x, σ)
           end
  end.

Definition create_from_backend (backend : string) (kwargs : Kwargs)
    (σ : Hvd) : outcome _HorovodDistModel * Hvd :=
  if negb (bool_decide (backend ∈ available_backends))
  then (Throw (Builtin (ValueError
          "Backend should be one of '('horovod',)'")), σ)
  else
    match _get_hvd_rank σ with
    | Raise x => (Throw (Builtin x), σ)
    | Ok rank =>
        if bool_decide (-1 < rank)
        then (Throw (RuntimeError
                "Can not re-initialize Horovod if it is already initialized"),
              σ)
        else new_model true (Some kwargs) σ
    end.

End HorovodCreate.

(** ** Instances to run the model on *)

Module Sample.

(** A signature check that accepts a callable exactly when it declares as
    many parameters as there are arguments to bind. *)
Definition bind_positional {Engine : Type} (fn : @callable Engine)
    (fn_description : string) (args : list string) : result unit :=
  if bool_decide (length (fn_params fn) = length args) then Ok tt
  else Raise (ValueError ("Error adding " +:+ fn_description)).

(** A string hash: the sum of the character codes. *)
Fixpoint code_sum (s : string) : Z :=
  match s with
  | EmptyString => 0
  | String c s => Z.of_nat (Ascii.nat_of_ascii c) + code_sum s
  end.

(** A user filter in the manner of the class docstring: fire on the
    event counts 1, 2 and 5. *)
Definition custom_event_filter : @callable unit :=
  {| fn_params := ["engine"; "event"];
     fn_call := fun _ event =>
       Ok (bool_decide (event = 1 ∨ event = 2 ∨ event = 5)) |}.

(** An engine reduced to its registry: which handler (a number) is
    attached under which event name. *)
Definition registry : Type := list (string * nat).

Definition event_key {Engine : Type} (e : @operand Engine) : string :=
  match e with
  | OEvent ev => default EmptyString (_name_ ev)
  | OStr s => s
  | _ => EmptyString
  end.

Definition has_handler (eng : registry) (h : nat) (e : @operand registry)
    : bool :=
  bool_decide ((event_key e, h) ∈ eng).

Definition remove_handler (eng : registry) (h : nat)
    (e : @operand registry) : result unit * registry :=
  if has_handler eng h e
  then (Ok tt,
        List.filter (fun p => negb (bool_decide (p = (event_key e, h)))) eng)
  else (Raise (ValueError
          "Input handler is not found among registered event handlers"),
        eng).

Global Instance registry_methods : @EngineMethods registry nat :=
  {| has_event_handler := has_handler;
     remove_event_handler := remove_handler |}.

(** Handler 7 attached under two events, handler 8 under one of them; both
    alive, as is the engine at address 0; one list of three events at
    address 0. *)
Definition sample_world : @world registry nat :=
  {| handlers := {[ 1%nat := 7%nat; 2%nat := 8%nat ]};
     engines := {[ 0%nat := [("STARTED", 7%nat); ("COMPLETED", 8%nat);
                              ("COMPLETED", 7%nat)] ]};
     events_lists :=
       {[ 0%nat := [Events.STARTED; Events.EPOCH_STARTED;
                     Events.COMPLETED] ]} |}.

(** A Horovod library reduced to the rank of this process, known once the
    library is initialised. *)
Definition hvd : Type := option Z.

Definition rank_of (σ : hvd) : result Z :=
  match σ with
  | Some r => Ok r
  | None => Raise (ValueError "Horovod has not been initialized; use hvd.init().")
  end.

Definition model_of (do_init : bool) (kwargs : option unit) (σ : hvd)
    : outcome _HorovodDistModel * hvd :=
  let σ := if do_init then Some 0 else σ in
  (Return (HorovodDistModel "horovod" (default 0 σ) 1 1 0), σ).

(** A [repr] that hides the address. *)
Definition repr_function (f : @callable unit) : string := "<function>".

(** What the class [State] itself answers to attribute lookup. *)
Definition State_class_attrs : gmap string attr :=
  {[ "event_to_attr" := AObject "<class 'dict'>";
     "get_event_attrib_value" := AObject "<class 'method'>";
     "_update_attrs" := AObject "<class 'method'>" ]}.

End Sample.

(** * Properties *)

Lemma bind_positional_fits {Engine : Type} (f : @callable Engine)
    (desc : string) (args : list string) :
  length (fn_params f) = length args →
  Sample.bind_positional f desc args = Ok tt.
Proof.
  intros Hlen. unfold Sample.bind_positional.
  by rewrite bool_decide_eq_true_2.
Qed.

(** Runs the tests of [__call__] on arguments whose shape is known. *)
Ltac run_call :=
  unfold __call__, Integral_gt_0, int_value, name;
  cbn [is_not_None is_callable as_Integral xorb negb andb
       default from_option id];
  rewrite ?bool_decide_eq_true_2 by done;
  cbn [negb andb as_callable].

Section CallFacts.

Context {Engine : Type}.
Variable check : @callable Engine → string → list string → result unit.

(** What is assumed of [_check_signature]: a callable that declares as
    many parameters as arguments are bound passes. *)
Hypothesis check_fits : ∀ f desc args,
  length (fn_params f) = length args → check f desc args = Ok tt.

Implicit Types (self : @CallableEventWithFilter Engine) (N e : Z).

Lemma name_Some self n : _name_ self = Some n → name self = Ok n.
Proof. unfold name. by intros ->. Qed.

(** [__call__] with [every] alone, for a positive integer. *)
Lemma call_every self n N :
  _name_ self = Some n → 0 < N →
  __call__ check self PyNone (PyInt N) PyNone =
    Ok (Event (if bool_decide (N = 1) then default_event_filter
               else every_event_filter N)
              (_value_ self) (Some n)).
Proof.
  intros Hn HN. run_call. rewrite Hn.
  destruct (decide (N = 1)) as [->|HN1]; [done|].
  rewrite !bool_decide_eq_false_2 by done. cbn [as_callable].
  by rewrite check_fits.
Qed.

(** [__call__] with [once] alone, for a positive integer. *)
Lemma call_once self n N :
  _name_ self = Some n → 0 < N →
  __call__ check self PyNone PyNone (PyInt N) =
    Ok (Event (once_event_filter N) (_value_ self) (Some n)).
Proof.
  intros Hn HN. run_call. by rewrite Hn, check_fits.
Qed.

(** [__call__] with [event_filter] alone, for a callable. *)
Lemma call_event_filter self n f :
  _name_ self = Some n →
  __call__ check self (PyCallable f) PyNone PyNone =
    (check f "event_filter" ["engine"; "event"] ;;
     Ok (Event f (_value_ self) (Some n))).
Proof.
  intros Hn. run_call. by rewrite Hn.
Qed.

(** Without a name the call gets as far as [self.name] and stops there. *)
Lemma call_every_unnamed self N :
  _name_ self = None → 0 < N →
  ∃ msg, __call__ check self PyNone (PyInt N) PyNone =
           Raise (AttributeError msg).
Proof.
  intros Hn HN. run_call. rewrite Hn.
  case_bool_decide; cbn [as_callable]; [by eexists|].
  rewrite check_fits by done. by eexists.
Qed.

Lemma call_once_unnamed self N :
  _name_ self = None → 0 < N →
  ∃ msg, __call__ check self PyNone PyNone (PyInt N) =
           Raise (AttributeError msg).
Proof.
  intros Hn HN. run_call. rewrite Hn, check_fits by done. by eexists.
Qed.

(** The filter built for [every]: true exactly on the multiples. *)
Lemma every_event_filter_call N (engine : Engine) e :
  N ≠ 0 →
  ∃ b, fn_call (every_event_filter N) engine e = Ok b
       ∧ (b = true ↔ (N | e)).
Proof.
  intros HN. cbn. rewrite bool_decide_eq_false_2 by done.
  case_bool_decide as Hmod.
  - exists true. split; [done|]. split; [|done].
    intros _. by apply Z.mod_divide.
  - exists false. split; [done|]. split; [done|].
    intros Hdiv. by apply Z.mod_divide in Hdiv.
Qed.

(** C1: for a positive integer N, an event called with every=N returns an
    event whose filter, for every engine and every event count e, returns
    True exactly when N divides e. *)
Theorem every_fires_on_multiples self n N :
  _name_ self = Some n → 0 < N →
  ∃ ev, __call__ check self PyNone (PyInt N) PyNone = Ok ev
        ∧ ∀ (engine : Engine) e,
            ∃ b, fn_call (filter ev) engine e = Ok b
                 ∧ (b = true ↔ (N | e)).
Proof.
  intros Hn HN. eexists. split; [by apply call_every|].
  intros engine e. cbn [filter]. case_bool_decide as HN1.
  - subst N. exists true. split; [done|]. split; [|done].
    intros _. apply Z.divide_1_l.
  - apply every_event_filter_call. lia.
Qed.

(** C2: for a positive integer N, an event called with once=N returns an
    event whose filter returns True exactly when the event count equals N,
    so that it accepts one event count and no other. *)
Theorem once_fires_at_N_only self n N :
  _name_ self = Some n → 0 < N →
  ∃ ev, __call__ check self PyNone PyNone (PyInt N) = Ok ev
        ∧ (∀ (engine : Engine) e,
             fn_call (filter ev) engine e = Ok (bool_decide (e = N)))
        ∧ (∀ (engine : Engine) e e',
             fn_call (filter ev) engine e = Ok true →
             fn_call (filter ev) engine e' = Ok true → e = e').
Proof.
  intros Hn HN. eexists. split; [by apply call_once|].
  cbn [filter once_event_filter fn_call]. split.
  - intros _ e. by case_bool_decide.
  - intros _ e e'. do 2 case_bool_decide; congruence.
Qed.

(** [every=1] needs no signature check: the filter argument stays [None]. *)
Lemma call_every_1 self n :
  _name_ self = Some n →
  __call__ check self PyNone (PyInt 1) PyNone =
    Ok (Event default_event_filter (_value_ self) (Some n)).
Proof.
  intros Hn. run_call. by rewrite Hn.
Qed.

(** C6: called with every=1 an event comes back with the default filter;
    the default filter and the filter every_event_filter(1) both return
    True for every engine and every event count, as does the filter of the
    unfiltered enum member. *)
Theorem every_1_is_default_filter self n :
  _name_ self = Some n →
  (∃ ev, __call__ check self PyNone (PyInt 1) PyNone = Ok ev
         ∧ filter ev = default_event_filter
         ∧ _value_ ev = _value_ self ∧ _name_ ev = _name_ self)
  ∧ (∀ (engine : Engine) e,
       fn_call default_event_filter engine e = Ok true
       ∧ fn_call (every_event_filter 1) engine e = Ok true
       ∧ e `mod` 1 = 0)
  ∧ (∀ member_name v,
       filter (@enum_member Engine member_name v) = default_event_filter).
Proof.
  intros Hn. split; [|split].
  - eexists. split; [by apply call_every_1|]. by rewrite Hn.
  - intros engine e. split; [done|].
    assert (e `mod` 1 = 0) as Hmod by apply Z.mod_1_r.
    split; [|done]. cbn. by rewrite Hmod.
  - done.
Qed.

(** C7: called with a callable event_filter alone, an event returns an
    event that has that very callable as its filter, and the value and the
    name of the original. *)
Theorem event_filter_is_kept self n f :
  _name_ self = Some n →
  check f "event_filter" ["engine"; "event"] = Ok tt →
  ∃ ev, __call__ check self (PyCallable f) PyNone PyNone = Ok ev
        ∧ filter ev = f
        ∧ value ev = value self
        ∧ name ev = name self.
Proof.
  intros Hn Hf. eexists. rewrite (call_event_filter _ _ _ Hn), Hf.
  split; [done|]. split; [done|]. split; [done|].
  unfold name. cbn [_name_]. by rewrite Hn.
Qed.

(** An argument that is not an instance of [numbers.Integral], or one that
    is at most zero, fails the test [isinstance(..) and .. > 0]. *)
Lemma not_Integral_gt_0 (N : @pyobj Engine) :
  (∀ z, as_Integral N = Some z → z ≤ 0) → Integral_gt_0 N = false.
Proof.
  intros HN. unfold Integral_gt_0. destruct (as_Integral N) as [z|]; [|done].
  apply bool_decide_eq_false_2. specialize (HN z eq_refl). lia.
Qed.

Lemma call_every_invalid self (N : @pyobj Engine) :
  Integral_gt_0 N = false →
  ∃ msg, __call__ check self PyNone N PyNone = Raise (ValueError msg).
Proof.
  intros HN. unfold __call__. destruct N; cbn [is_not_None xorb negb andb];
    try rewrite HN; cbn [negb]; by eexists.
Qed.

Lemma call_once_invalid self (N : @pyobj Engine) :
  Integral_gt_0 N = false →
  ∃ msg, __call__ check self PyNone PyNone N = Raise (ValueError msg).
Proof.
  intros HN. unfold __call__. destruct N; cbn [is_not_None xorb negb andb];
    try rewrite HN; cbn [negb]; by eexists.
Qed.

(** With further arguments next to an invalid [every], the call still
    ends in [ValueError], unless all three are given and [event_filter] is
    not callable: the test on [event_filter] comes first and raises
    [TypeError]. *)
Lemma call_every_invalid_any self (event_filter N once : @pyobj Engine) :
  is_not_None N = true → Integral_gt_0 N = false →
  (∃ msg, __call__ check self event_filter N once = Raise (ValueError msg))
  ∨ (specified event_filter N once = 3%nat
     ∧ is_callable event_filter = false
     ∧ ∃ msg, __call__ check self event_filter N once
              = Raise (TypeError msg)).
Proof.
  intros HN Hbad. unfold __call__, specified. cbn [List.filter].
  rewrite HN, Hbad.
  destruct (is_not_None event_filter), (is_not_None once),
    (is_callable event_filter); cbn; eauto 6.
Qed.

(** C10: every=N raises ValueError when N is not an integer or N <= 0, and
    so does once=N; for a positive integer neither call raises ValueError. *)
Theorem every_once_validation self :
  (∀ N : pyobj,
     (∀ z, as_Integral N = Some z → z ≤ 0) →
     (∃ msg, __call__ check self PyNone N PyNone = Raise (ValueError msg))
     ∧ (∃ msg, __call__ check self PyNone PyNone N = Raise (ValueError msg)))
  ∧ (∀ N : Z,
       0 < N →
       is_ValueError (__call__ check self PyNone (PyInt N) PyNone) = false
       ∧ is_ValueError (__call__ check self PyNone PyNone (PyInt N)) = false).
Proof.
  split.
  - intros N HN. apply not_Integral_gt_0 in HN.
    split; [by apply call_every_invalid | by apply call_once_invalid].
  - intros N HN. destruct (_name_ self) as [n|] eqn:Hn.
    + by rewrite (call_every _ _ _ Hn HN), (call_once _ _ _ Hn HN).
    + destruct (call_every_unnamed _ _ Hn HN) as [m1 ->].
      by destruct (call_once_unnamed _ _ Hn HN) as [m2 ->].
Qed.

(** Whatever the arguments, an event that [__call__] returns carries the
    name of the event it was called on. *)
Lemma call_keeps_name self (event_filter every once : pyobj) d :
  __call__ check self event_filter every once = Ok d →
  ∃ n, _name_ self = Some n ∧ _name_ d = Some n.
Proof.
  unfold __call__, name. repeat case_match; try discriminate.
  all: try destruct (check _ _ _) as [[]|]; cbn; try discriminate.
  all: intros [= <-]; by eexists.
Qed.

Variable hash : string → Z.

Lemma eq_same_name (a b : @CallableEventWithFilter Engine) n :
  _name_ a = Some n → _name_ b = Some n →
  __eq__ a (OEvent b) = Ok true ∧ __hash__ hash a = __hash__ hash b.
Proof.
  intros Ha Hb. unfold __eq__, __hash__, name. rewrite Ha, Hb. cbn.
  by rewrite bool_decide_eq_true_2.
Qed.

(** C9: two events compare equal exactly when they have the same name,
    whatever their filters; against a string the name is compared to the
    string; events of the same name have the same hash; hence E(every=N),
    E(once=N) and E(event_filter=f) compare equal to E and hash like E. *)
Theorem eq_and_hash_by_name :
  (∀ a b : @CallableEventWithFilter Engine,
     __eq__ a (OEvent b) = Ok true
     ↔ ∃ n, _name_ a = Some n ∧ _name_ b = Some n)
  ∧ (∀ (a b : @CallableEventWithFilter Engine) na nb,
       _name_ a = Some na → _name_ b = Some nb →
       __eq__ a (OEvent b) = Ok (bool_decide (na = nb)))
  ∧ (∀ (a : @CallableEventWithFilter Engine) na s,
       _name_ a = Some na → __eq__ a (OStr s) = Ok (bool_decide (na = s)))
  ∧ (∀ a b : @CallableEventWithFilter Engine,
       _name_ a = _name_ b → __hash__ hash a = __hash__ hash b)
  ∧ (∀ (E : @CallableEventWithFilter Engine) n N f,
       _name_ E = Some n → 0 < N →
       check f "event_filter" ["engine"; "event"] = Ok tt →
       Forall (λ r, ∃ d, r = Ok d
                         ∧ __eq__ d (OEvent E) = Ok true
                         ∧ __eq__ E (OEvent d) = Ok true
                         ∧ __hash__ hash d = __hash__ hash E)
         [ __call__ check E PyNone (PyInt N) PyNone;
           __call__ check E PyNone PyNone (PyInt N);
           __call__ check E (PyCallable f) PyNone PyNone ]).
Proof.
  split; [|split; [|split; [|split]]].
  - intros a b. unfold __eq__, name. split.
    + destruct (_name_ a) as [na|], (_name_ b) as [nb|]; cbn; try discriminate.
      intros [= Heq]. case_bool_decide; [|done]. subst. by exists nb.
    + intros (n & -> & ->). cbn. by rewrite bool_decide_eq_true_2.
  - intros a b na nb Ha Hb. unfold __eq__, name. by rewrite Ha, Hb.
  - intros a na s' Ha. unfold __eq__, name. by rewrite Ha.
  - intros a b Hab. unfold __hash__. by rewrite Hab.
  - intros E n N f Hn HN Hf.
    assert (∀ r d, r = Ok d →
              (∃ a b c, r = __call__ check E a b c) →
              ∃ d, r = Ok d
                   ∧ __eq__ d (OEvent E) = Ok true
                   ∧ __eq__ E (OEvent d) = Ok true
                   ∧ __hash__ hash d = __hash__ hash E) as Hsame.
    { intros r d -> (a & b & c & Hd). exists d. split; [done|].
      symmetry in Hd. apply call_keeps_name in Hd as (m & HE & Hdm).
      destruct (eq_same_name d E m Hdm HE) as [-> ->].
      by destruct (eq_same_name E d m HE Hdm) as [-> _]. }
    repeat apply Forall_cons_2; [| | |apply Forall_nil_2].
    + eapply Hsame; [by apply call_every|by eauto].
    + eapply Hsame; [by apply call_once|by eauto].
    + eapply Hsame; [by rewrite (call_event_filter _ _ _ Hn), Hf|by eauto].
Qed.

(** None or two of the arguments given: the first test of [__call__]
    raises. *)
Lemma call_even_specified self (event_filter every once : pyobj) :
  Nat.even (specified event_filter every once) = true →
  __call__ check self event_filter every once =
    Raise (ValueError "Only one of the input arguments should be specified").
Proof.
  unfold specified, __call__. cbn [List.filter].
  by destruct (is_not_None event_filter), (is_not_None every),
    (is_not_None once).
Qed.

(** All three given and valid: no test raises, and [once] decides the
    filter. *)
Lemma call_all_three self n f N M :
  _name_ self = Some n → 0 < N → 0 < M →
  __call__ check self (PyCallable f) (PyInt N) (PyInt M) =
    Ok (Event (once_event_filter M) (_value_ self) (Some n)).
Proof.
  intros Hn HN HM. run_call. by rewrite Hn, check_fits.
Qed.

End CallFacts.

(** C3, where the code departs from it: with all three of event_filter,
    every and once given, the call raises nothing and returns the event
    filtered by once. *)
Theorem call_accepts_all_three_arguments :
  specified (PyCallable Sample.custom_event_filter) (PyInt 2) (PyInt 3)
    = 3%nat
  ∧ __call__ Sample.bind_positional Events.ITERATION_STARTED
      (PyCallable Sample.custom_event_filter) (PyInt 2) (PyInt 3)
    = Ok (Event (once_event_filter 3) "iteration_started"
            (Some "ITERATION_STARTED")).
Proof. split; reflexivity. Qed.

(** ** Event lists *)

Section ListFacts.

Context {Engine : Type}.
Implicit Types (σ : gmap nat (list (@CallableEventWithFilter Engine))).
Implicit Types (e : @CallableEventWithFilter Engine).
Implicit Types (es rest : list (@CallableEventWithFilter Engine)).

Lemma _events_insert l es σ : _events l (<[l := es]> σ) = es.
Proof. unfold _events. by rewrite lookup_insert_eq. Qed.

Lemma EventsList__init__fresh σ :
  σ !! (EventsList__init__ σ).1 = None.
Proof.
  cbn. apply not_elem_of_dom, is_fresh.
Qed.

(** [l | e] for an event appends in place and hands back the same list. *)
Lemma EventsList__or__event l e σ :
  EventsList__or__ l (OEvent e) σ =
    (Ok l, <[l := _events l σ ++ [e]]> σ).
Proof. done. Qed.

Lemma or_rest_events l es rest σ :
  σ !! l = Some es →
  or_rest l (OEvent <$> rest) σ = (Ok l, <[l := es ++ rest]> σ).
Proof.
  revert es σ. induction rest as [|e rest IH]; intros es σ Hl.
  - cbn. by rewrite app_nil_r, insert_id.
  - cbn [fmap list_fmap or_rest]. rewrite EventsList__or__event.
    unfold _events at 1. rewrite Hl. cbn [default from_option id].
    rewrite (IH (es ++ [e])) by apply lookup_insert_eq.
    by rewrite insert_insert_eq, <- app_assoc.
Qed.

Lemma __or__events e1 e2 σ :
  __or__ e1 (OEvent e2) σ =
    (Ok (fresh (dom σ)), <[fresh (dom σ) := [e1; e2]]> σ).
Proof.
  unfold __or__, EventsList__init__. rewrite !EventsList__or__event.
  rewrite !_events_insert. by rewrite !insert_insert_eq.
Qed.

Lemma EventsList__getitem__lookup l σ (i : nat) e :
  _events l σ !! i = Some e →
  EventsList__getitem__ l (Z.of_nat i) σ = Ok e.
Proof.
  intros Hi. unfold EventsList__getitem__.
  rewrite (bool_decide_eq_false_2 (Z.of_nat i < 0)) by lia.
  rewrite bool_decide_eq_true_2 by lia.
  by rewrite Nat2Z.id, Hi.
Qed.

(** C4: e1 | e2 | ... | en is an EventsList, a new object, of length n, whose
    elements are e1, ..., en in this order, both when indexed and when
    iterated over. *)
Theorem or_collects_in_order σ e1 e2 rest :
  ∃ l σ',
    or_expr e1 (OEvent e2) (OEvent <$> rest) σ = (Ok l, σ')
    ∧ σ !! l = None
    ∧ (∀ l', l' ≠ l → σ' !! l' = σ !! l')
    ∧ EventsList__len__ l σ' = length (e1 :: e2 :: rest)
    ∧ EventsList__iter__ l σ' = e1 :: e2 :: rest
    ∧ ∀ (i : nat) e, (e1 :: e2 :: rest) !! i = Some e →
        EventsList__getitem__ l (Z.of_nat i) σ' = Ok e.
Proof.
  exists (fresh (dom σ)), (<[fresh (dom σ) := e1 :: e2 :: rest]> σ).
  split; [|split; [|split; [|split; [|split]]]].
  - unfold or_expr. rewrite __or__events.
    rewrite (or_rest_events _ [e1; e2]) by apply lookup_insert_eq.
    by rewrite insert_insert_eq.
  - apply not_elem_of_dom, is_fresh.
  - intros l' Hl'. by rewrite lookup_insert_ne.
  - unfold EventsList__len__. by rewrite _events_insert.
  - unfold EventsList__iter__. by rewrite _events_insert.
  - intros i e Hi. apply EventsList__getitem__lookup.
    by rewrite _events_insert.
Qed.

End ListFacts.

(** ** Removable handles *)

Section HandleFacts.

Context {Engine Handler : Type} `{!@EngineMethods Engine Handler}.
Implicit Types (h : Handler) (eng : Engine).

(** A pass has one outcome. *)
Lemma removal_functional h es eng out1 out2 :
  removal h es eng out1 → removal h es eng out2 → out1 = out2.
Proof.
  intros H1. revert out2.
  induction H1 as [eng|e es eng out Hhas _ IH|e es eng eng' out Hhas Hrm _ IH
                   |e es eng eng' x Hhas Hrm];
    intros out2 H2; inversion H2; subst; try congruence.
  - by apply IH.
  - apply IH. congruence.
Qed.

Lemma remove_if_present_removal h e eng :
  removal h [e] eng (remove_if_present h e eng).
Proof.
  unfold remove_if_present.
  destruct (has_event_handler eng h e) eqn:Hhas.
  - destruct (remove_event_handler eng h e) as [[[]|x] eng'] eqn:Hrm.
    + eapply removal_step; [done..|constructor].
    + by eapply removal_raise.
  - apply removal_skip; [done|constructor].
Qed.

Lemma remove_each_removal h es eng :
  removal h (OEvent <$> es) eng (remove_each h es eng).
Proof.
  revert eng. induction es as [|e es IH]; intros eng; [constructor|].
  cbn [fmap list_fmap remove_each].
  unfold remove_if_present.
  destruct (has_event_handler eng h (OEvent e)) eqn:Hhas.
  - destruct (remove_event_handler eng h (OEvent e)) as [[[]|x] eng'] eqn:Hrm.
    + eapply removal_step; [done..|apply IH].
    + by eapply removal_raise.
  - apply removal_skip; [done|apply IH].
Qed.

Lemma remove_dead (self : RemovableEventHandle) (w : world) :
  handlers w !! handler self = None ∨ engines w !! engine self = None →
  remove self w = (Ok tt, w).
Proof.
  unfold remove. intros [-> | Heng]; [done|].
  rewrite Heng. by destruct (handlers w !! handler self).
Qed.

Lemma remove_alive (self : RemovableEventHandle) (w : world) h eng :
  handlers w !! handler self = Some h →
  engines w !! engine self = Some eng →
  ∃ r eng',
    remove self w =
      (r, World (handlers w) (<[engine self := eng']> (engines w))
            (events_lists w))
    ∧ removal h (registered self w) eng (r, eng').
Proof.
  intros Hh Heng. unfold remove. rewrite Hh, Heng.
  assert (∃ out,
    out = match event_name self with
          | OEventsList l => remove_each h (_events l (events_lists w)) eng
          | e => remove_if_present h e eng
          end
    ∧ removal h (registered self w) eng out) as ([r eng'] & <- & Hout).
  { eexists. split; [done|]. unfold registered.
    destruct (event_name self);
      auto using remove_if_present_removal, remove_each_removal. }
  by exists r, eng'.
Qed.

(** A pass over an engine whose [remove_event_handler] succeeds wherever
    [has_event_handler] holds does not raise. *)
Lemma removal_returns h es eng r eng' :
  (∀ eng h e, has_event_handler eng h e = true →
              ∃ eng', remove_event_handler eng h e = (Ok tt, eng')) →
  removal h es eng (r, eng') → r = Ok tt.
Proof.
  intros Hlaw Hpass. remember (r, eng') as out eqn:Hout.
  revert r eng' Hout.
  induction Hpass as [eng|e es eng out Hhas _ IH
                      |e es eng eng1 out Hhas Hrm _ IH
                      |e es eng eng1 x Hhas Hrm]; intros r eng' Hout.
  - by injection Hout as <- _.
  - by eapply IH.
  - by eapply IH.
  - destruct (Hlaw _ _ _ Hhas) as [eng2 Hok]. congruence.
Qed.

(** With such an engine, [remove] returns in every case. *)
Lemma remove_returns (self : RemovableEventHandle) (w : world) :
  (∀ eng h e, has_event_handler eng h e = true →
              ∃ eng', remove_event_handler eng h e = (Ok tt, eng')) →
  (remove self w).1 = Ok tt.
Proof.
  intros Hlaw.
  destruct (handlers w !! handler self) as [h|] eqn:Hh;
    [destruct (engines w !! engine self) as [eng|] eqn:Heng|].
  - destruct (remove_alive self w h eng Hh Heng) as (r & eng' & -> & Hpass).
    by eapply removal_returns.
  - rewrite remove_dead; auto.
  - rewrite remove_dead; auto.
Qed.

(** C5: remove() returns and changes nothing when the handler or the
    engine behind its weak reference is gone. When both are alive it goes
    once over the registered event, or over the events of the registered
    list in their order, and asks the engine to remove the handler under
    exactly those events under which the engine has it at that moment. *)
Theorem remove_spec (self : RemovableEventHandle) (w : world) :
  (handlers w !! handler self = None ∨ engines w !! engine self = None →
   remove self w = (Ok tt, w))
  ∧ (∀ h eng,
       handlers w !! handler self = Some h →
       engines w !! engine self = Some eng →
       ∃ r eng',
         remove self w =
           (r, World (handlers w) (<[engine self := eng']> (engines w))
                 (events_lists w))
         ∧ removal h (registered self w) eng (r, eng')
         ∧ ∀ out, removal h (registered self w) eng out → out = (r, eng')).
Proof.
  split; [apply remove_dead|].
  intros h eng Hh Heng.
  destruct (remove_alive self w h eng Hh Heng) as (r & eng' & Hrun & Hpass).
  exists r, eng'. split; [done|]. split; [done|].
  intros out Hout. by eapply removal_functional.
Qed.

End HandleFacts.

(** ** Horovod *)

(** C8: for every tensor, and every op, _do_all_reduce and _do_all_gather
    raise NotImplementedError and leave the model as it was. *)
Theorem collectives_not_implemented {Tensor : Type}
    (self : _HorovodDistModel) (tensor : Tensor) (op : string) :
  (∃ msg, _do_all_reduce self tensor op
          = (Raise (NotImplementedError msg), self))
  ∧ (∃ msg, _do_all_gather self tensor
            = (Raise (NotImplementedError msg), self)).
Proof. split; by eexists. Qed.

(** ** The model at work *)

Example every_3_on_counts :
  fn_call (every_event_filter 3) tt <$> [1; 2; 3; 4; 5; 6; 9; 10]
  = Ok <$> [false; false; true; false; false; true; true; false].
Proof. reflexivity. Qed.

Example once_50_on_counts :
  fn_call (once_event_filter 50) tt <$> [1; 49; 50; 51; 100]
  = Ok <$> [false; false; true; false; false].
Proof. reflexivity. Qed.

Example call_without_arguments :
  __call__ Sample.bind_positional (@Events.STARTED unit) PyNone PyNone PyNone
  = Raise (ValueError "Only one of the input arguments should be specified").
Proof. reflexivity. Qed.

Example call_every_and_once :
  __call__ Sample.bind_positional (@Events.STARTED unit)
    PyNone (PyInt 2) (PyInt 3)
  = Raise (ValueError "Only one of the input arguments should be specified").
Proof. reflexivity. Qed.

Example call_event_filter_not_callable :
  __call__ Sample.bind_positional (@Events.STARTED unit)
    (PyStr "often") PyNone PyNone
  = Raise (TypeError "Argument event_filter should be a callable").
Proof. reflexivity. Qed.

Example call_every_bool :
  __call__ Sample.bind_positional (@Events.STARTED unit)
    PyNone (PyBool true) PyNone
  = Ok (Event default_event_filter "started" (Some "STARTED")).
Proof. reflexivity. Qed.

Example eq_unnamed_event :
  ∃ msg, __eq__ (@Events.STARTED unit)
           (OEvent (new_event "started" None None))
         = Raise (AttributeError msg).
Proof. by eexists. Qed.

Example eq_other_object :
  __eq__ (@Events.STARTED unit) (OOther "<class 'int'>")
  = Raise (NotImplementedError EmptyString).
Proof. reflexivity. Qed.

Example or_three_events :
  or_expr (@Events.STARTED unit) (OEvent Events.COMPLETED)
    [OEvent (Event (every_event_filter 3) "iteration_started"
               (Some "ITERATION_STARTED"))] ∅
  = (Ok 0%nat,
     {[ 0%nat := [Events.STARTED; Events.COMPLETED;
                   Event (every_event_filter 3) "iteration_started"
                     (Some "ITERATION_STARTED")] ]}).
Proof. by vm_compute. Qed.

Example or_with_a_list_on_the_right :
  ∃ msg σ, or_expr (@Events.STARTED unit) (OEvent Events.COMPLETED)
             [OEventsList 5] ∅ = (Raise (TypeError msg), σ).
Proof. by do 2 eexists. Qed.

Example getitem_from_the_end :
  EventsList__getitem__ 0 (-1) (events_lists Sample.sample_world)
  = Ok Events.COMPLETED.
Proof. reflexivity. Qed.

(** Handler 7 leaves the events of the list under which it is attached;
    handler 8 stays. *)
Example remove_over_a_list :
  let '(r, w) := remove (Handle (OEventsList 0) 1%nat 0%nat)
                   Sample.sample_world in
  r = Ok tt ∧ engines w !! 0%nat = Some [("COMPLETED", 8%nat)].
Proof. by vm_compute. Qed.

(** The weak reference to the handler is dead: nothing happens. *)
Example remove_dead_handler :
  remove (Handle (OEventsList 0) 3%nat 0%nat) Sample.sample_world
  = (Ok tt, Sample.sample_world).
Proof. reflexivity. Qed.

(** ** The theorems on the built-in events *)

Lemma every_fires_on_multiples_witness :
  ∃ ev, __call__ Sample.bind_positional (@Events.ITERATION_STARTED unit)
          PyNone (PyInt 3) PyNone = Ok ev
        ∧ ∀ (engine : unit) e,
            ∃ b, fn_call (filter ev) engine e = Ok b ∧ (b = true ↔ (3 | e)).
Proof.
  apply (every_fires_on_multiples Sample.bind_positional
           bind_positional_fits Events.ITERATION_STARTED
           "ITERATION_STARTED" 3); [reflexivity | lia].
Defined.

Lemma once_fires_at_N_only_witness :
  ∃ ev, __call__ Sample.bind_positional (@Events.ITERATION_STARTED unit)
          PyNone PyNone (PyInt 50) = Ok ev
        ∧ (∀ (engine : unit) e,
             fn_call (filter ev) engine e = Ok (bool_decide (e = 50)))
        ∧ (∀ (engine : unit) e e',
             fn_call (filter ev) engine e = Ok true →
             fn_call (filter ev) engine e' = Ok true → e = e').
Proof.
  apply (once_fires_at_N_only Sample.bind_positional
           bind_positional_fits Events.ITERATION_STARTED
           "ITERATION_STARTED" 50); [reflexivity | lia].
Defined.

Lemma every_1_is_default_filter_witness :
  ∃ ev, __call__ Sample.bind_positional (@Events.EPOCH_COMPLETED unit)
          PyNone (PyInt 1) PyNone = Ok ev
        ∧ filter ev = default_event_filter
        ∧ _value_ ev = "epoch_completed"
        ∧ _name_ ev = Some "EPOCH_COMPLETED".
Proof.
  apply (every_1_is_default_filter Sample.bind_positional
           Events.EPOCH_COMPLETED "EPOCH_COMPLETED"). reflexivity.
Defined.

Lemma event_filter_is_kept_witness :
  ∃ ev, __call__ Sample.bind_positional (@Events.ITERATION_STARTED unit)
          (PyCallable Sample.custom_event_filter) PyNone PyNone = Ok ev
        ∧ filter ev = Sample.custom_event_filter
        ∧ value ev = "iteration_started"
        ∧ name ev = Ok "ITERATION_STARTED".
Proof.
  apply (event_filter_is_kept Sample.bind_positional
           Events.ITERATION_STARTED "ITERATION_STARTED"
           Sample.custom_event_filter); reflexivity.
Defined.

Lemma eq_and_hash_by_name_witness :
  Forall (λ r, ∃ d : @CallableEventWithFilter unit, r = Ok d
                 ∧ __eq__ d (OEvent Events.ITERATION_STARTED) = Ok true
                 ∧ __eq__ Events.ITERATION_STARTED (OEvent d) = Ok true
                 ∧ __hash__ Sample.code_sum d
                   = __hash__ Sample.code_sum
                       (@Events.ITERATION_STARTED unit))
    [ __call__ Sample.bind_positional (@Events.ITERATION_STARTED unit)
        PyNone (PyInt 3) PyNone;
      __call__ Sample.bind_positional Events.ITERATION_STARTED
        PyNone PyNone (PyInt 3);
      __call__ Sample.bind_positional Events.ITERATION_STARTED
        (PyCallable Sample.custom_event_filter) PyNone PyNone ].
Proof.
  apply (eq_and_hash_by_name Sample.bind_positional bind_positional_fits
           Sample.code_sum) with (n := "ITERATION_STARTED");
    [reflexivity | lia | reflexivity].
Defined.

Lemma every_once_validation_witness :
  (∃ msg, __call__ Sample.bind_positional (@Events.ITERATION_STARTED unit)
            PyNone (PyInt 0) PyNone = Raise (ValueError msg))
  ∧ (∃ msg, __call__ Sample.bind_positional (@Events.ITERATION_STARTED unit)
              PyNone PyNone (PyObject "<class 'float'>")
            = Raise (ValueError msg))
  ∧ is_ValueError (__call__ Sample.bind_positional
                     (@Events.ITERATION_STARTED unit)
                     PyNone (PyInt 5) PyNone) = false.
Proof.
  destruct (every_once_validation Sample.bind_positional
              bind_positional_fits (@Events.ITERATION_STARTED unit))
    as [Hbad Hgood].
  split; [|split].
  - apply (Hbad (PyInt 0)). intros z [= <-]. lia.
  - apply (Hbad (PyObject "<class 'float'>")). intros z [=].
  - apply (Hgood 5). lia.
Defined.

(** * Further properties *)

(** ** Calling an event: what comes back *)

Section CallShape.

Context {Engine : Type}.
Variable check : @callable Engine → string → list string → result unit.
Implicit Types (self E d : @CallableEventWithFilter Engine).
Implicit Types (a b c : @pyobj Engine).

(** An event that [__call__] returns is a new event with the value and the
    name of the one called. *)
Lemma call_Ok_inv self a b c d :
  __call__ check self a b c = Ok d →
  ∃ n f, _name_ self = Some n ∧ d = Event f (_value_ self) (Some n).
Proof.
  unfold __call__, name. repeat case_match; try discriminate.
  all: try destruct (check _ _ _) as [[]|]; cbn; try discriminate.
  all: intros [= <-]; by do 2 eexists.
Qed.

(** X1: filters do not stack. Calling an event that was itself obtained by
    a call gives what calling the original event gives: the filter already
    on the event plays no part. *)
Theorem call_does_not_stack E a b c d a' b' c' :
  __call__ check E a b c = Ok d →
  __call__ check d a' b' c' = __call__ check E a' b' c'.
Proof.
  intros Hd. apply call_Ok_inv in Hd as (n & f & Hn & ->).
  unfold __call__, name, value. cbn [_name_ _value_]. by rewrite Hn.
Qed.

Lemma Integral_gt_0_int_value (o : @pyobj Engine) :
  Integral_gt_0 o = true → 0 < int_value o.
Proof.
  unfold Integral_gt_0, int_value. destruct (as_Integral o); [|done].
  by intros ?%bool_decide_eq_true_1.
Qed.

Lemma call_Ok_filter E a b c d :
  __call__ check E a b c = Ok d →
  filter d = default_event_filter
  ∨ (∃ N, 1 < N ∧ filter d = every_event_filter N)
  ∨ (∃ N, 0 < N ∧ filter d = once_event_filter N)
  ∨ a = PyCallable (filter d).
Proof.
  intros Hd. pose proof Hd as (n & f & Hn & ->)%call_Ok_inv.
  revert Hd. unfold __call__, name. rewrite Hn.
  destruct (negb _); [discriminate|].
  destruct (is_not_None a && _); [discriminate|].
  destruct (is_not_None b && _) eqn:Hb; [discriminate|].
  destruct (is_not_None c && _) eqn:Hc; [discriminate|].
  cbn zeta. destruct (is_not_None c) eqn:Hcn.
  - cbn [as_callable andb] in *. apply negb_false_iff in Hc.
    destruct (check _ _ _) as [[]|]; cbn; [|discriminate].
    intros [= <-]. right; right; left. eexists. split; [|done].
    by apply Integral_gt_0_int_value.
  - destruct (is_not_None b) eqn:Hbn.
    + cbn [andb] in Hb. apply negb_false_iff, Integral_gt_0_int_value in Hb.
      case_bool_decide as H1; cbn [as_callable].
      * cbn. intros [= <-]. by left.
      * destruct (check _ _ _) as [[]|]; cbn; [|discriminate].
        intros [= <-]. right; left. eexists. split; [|done]. lia.
    + destruct a as [| | | | |g]; cbn [as_callable]; cbn;
        try (intros [= <-]; by left).
      destruct (check _ _ _) as [[]|]; cbn; [|discriminate].
      intros [= <-]. by repeat right.
Qed.

(** X2: the filter of a returned event is the default filter, the filter
    of every for some N > 1, the filter of once for some N > 0, or the
    callable that was passed; value and name are those of the event
    called, which has a name. *)
Theorem call_result_shape E a b c d :
  __call__ check E a b c = Ok d →
  _value_ d = _value_ E
  ∧ _name_ d = _name_ E
  ∧ is_Some (_name_ E)
  ∧ (filter d = default_event_filter
     ∨ (∃ N, 1 < N ∧ filter d = every_event_filter N)
     ∨ (∃ N, 0 < N ∧ filter d = once_event_filter N)
     ∨ a = PyCallable (filter d)).
Proof.
  intros Hd. pose proof Hd as (n & f & Hn & ->)%call_Ok_inv.
  rewrite Hn. split; [done|]. split; [done|]. split; [by eexists|].
  by apply call_Ok_filter in Hd.
Qed.

(** X3: a filter that [__call__] built itself, from every or once, never
    raises: it answers True or False on every engine and event count. *)
Theorem built_filters_never_raise E b c d :
  __call__ check E PyNone b c = Ok d →
  ∀ (engine : Engine) e, ∃ r, fn_call (filter d) engine e = Ok r.
Proof.
  intros Hd engine e.
  apply call_Ok_filter in Hd
    as [-> | [(N & HN & ->) | [(N & HN & ->) | [=]]]]; cbn.
  - by eexists.
  - rewrite bool_decide_eq_false_2 by lia. case_bool_decide; by eexists.
  - case_bool_decide; by eexists.
Qed.

(** X4: a given event_filter that is not callable ends the call in
    TypeError as soon as the number of given arguments passes the first
    test, before every and once are looked at. *)
Theorem call_not_callable_raises_TypeError E a b c :
  is_not_None a = true → is_callable a = false →
  Nat.odd (specified a b c) = true →
  __call__ check E a b c =
    Raise (TypeError "Argument event_filter should be a callable").
Proof.
  intros Ha Hcall. unfold specified, __call__. cbn [List.filter].
  rewrite Ha, Hcall.
  by destruct (is_not_None b), (is_not_None c).
Qed.

(** X5: of any N consecutive event counts, the filter of every=N accepts
    exactly one. *)
Theorem every_accepts_one_per_window N k (engine : Engine) :
  0 < N →
  ∃ e, (k ≤ e < k + N ∧ fn_call (every_event_filter N) engine e = Ok true)
       ∧ ∀ e', k ≤ e' < k + N →
               fn_call (every_event_filter N) engine e' = Ok true → e' = e.
Proof.
  intros HN. cbn. rewrite bool_decide_eq_false_2 by lia.
  exists (k + (- k) `mod` N).
  pose proof (Z.mod_pos_bound (- k) N HN) as Hbound.
  assert ((k + (- k) `mod` N) `mod` N = 0) as Hzero.
  { rewrite Z.add_mod_idemp_r by lia.
    replace (k + - k) with 0 by lia. by apply Z.mod_0_l; lia. }
  split.
  - split; [lia|]. by rewrite bool_decide_eq_true_2.
  - intros e' He'. case_bool_decide as Hmod; [intros _|discriminate].
    apply Z.mod_divide in Hzero as [q Hq]; [|lia].
    apply Z.mod_divide in Hmod as [q' Hq']; [|lia].
    assert (q' = q) by nia. subst q'. lia.
Qed.

(** X6: with none or exactly two of the three arguments given the call
    raises ValueError at its first test, whatever the arguments are. *)
Theorem call_rejects_none_or_two E a b c :
  Nat.even (specified a b c) = true →
  __call__ check E a b c =
    Raise (ValueError "Only one of the input arguments should be specified").
Proof. apply call_even_specified. Qed.

(** X7: with all three arguments given, a callable and two positive
    integers, the call returns the event filtered by once; every and
    event_filter leave no trace. *)
Theorem call_with_all_three_keeps_once E n f N M :
  (∀ g desc args,
     length (fn_params g) = length args → check g desc args = Ok tt) →
  _name_ E = Some n → 0 < N → 0 < M →
  __call__ check E (PyCallable f) (PyInt N) (PyInt M) =
    __call__ check E PyNone PyNone (PyInt M).
Proof.
  intros Hfits Hn HN HM.
  by rewrite (call_all_three check Hfits E n f N M),
    (call_once check Hfits E n M).
Qed.

(** An event without a name is never the source of another: the call gets
    to [self.name] at the latest. *)
Lemma call_unnamed_raises E a b c :
  _name_ E = None → ∃ x, __call__ check E a b c = Raise x.
Proof.
  intros Hn. destruct (__call__ check E a b c) as [d|x] eqn:Hd; [|by eexists].
  apply call_Ok_inv in Hd as (n & f & Hn' & _). congruence.
Qed.

End CallShape.

(** ** Comparing events *)

Section EqFacts.

Context {Engine : Type}.
Variable check : @callable Engine → string → list string → result unit.
Variable hash : string → Z.
Implicit Types (a b c : @CallableEventWithFilter Engine).

Lemma eq_Ok_true a b :
  __eq__ a (OEvent b) = Ok true ↔
  ∃ n, _name_ a = Some n ∧ _name_ b = Some n.
Proof.
  unfold __eq__, name. split.
  - destruct (_name_ a) as [na|], (_name_ b) as [nb|]; cbn; try discriminate.
    intros [= Heq]. case_bool_decide; [|done]. subst. by exists nb.
  - intros (n & -> & ->). cbn. by rewrite bool_decide_eq_true_2.
Qed.

(** X8: on events [==] is reflexive wherever the event has a name,
    symmetric and transitive. *)
Theorem eq_is_an_equivalence :
  (∀ a, is_Some (_name_ a) → __eq__ a (OEvent a) = Ok true)
  ∧ (∀ a b, __eq__ a (OEvent b) = Ok true → __eq__ b (OEvent a) = Ok true)
  ∧ (∀ a b c,
       __eq__ a (OEvent b) = Ok true → __eq__ b (OEvent c) = Ok true →
       __eq__ a (OEvent c) = Ok true).
Proof.
  split; [|split].
  - intros a [n Hn]. apply eq_Ok_true. by exists n.
  - intros a b (n & Ha & Hb)%eq_Ok_true. apply eq_Ok_true. by exists n.
  - intros a b c (n & Ha & Hb)%eq_Ok_true (m & Hb' & Hc)%eq_Ok_true.
    apply eq_Ok_true. exists n. split; [done|]. congruence.
Qed.

(** X9: an event built without a name can be neither compared nor hashed
    nor called: [==] raises on either side of it, [hash] raises
    AttributeError, and [__call__] raises for all arguments. *)
Theorem unnamed_event_is_unusable a :
  _name_ a = None →
  (∀ other, ∃ x, __eq__ a other = Raise x)
  ∧ (∀ b, ∃ msg, __eq__ b (OEvent a) = Raise (AttributeError msg))
  ∧ (∃ msg, __hash__ hash a = Raise (AttributeError msg))
  ∧ (∀ x y z, ∃ r, __call__ check a x y z = Raise r).
Proof.
  intros Hn. split; [|split; [|split]].
  - intros [o|s'|l|cls]; unfold __eq__, name; rewrite ?Hn; by eexists.
  - intros b. unfold __eq__, name. rewrite Hn.
    destruct (_name_ b); by eexists.
  - unfold __hash__. rewrite Hn. by eexists.
  - intros x y z. by apply call_unnamed_raises.
Qed.

End EqFacts.

(** ** Event lists: in place, and up to the first intruder *)

Section ListMore.

Context {Engine : Type}.
Implicit Types (σ : gmap nat (list (@CallableEventWithFilter Engine))).
Implicit Types (e : @CallableEventWithFilter Engine).
Implicit Types (es pre rest : list (@CallableEventWithFilter Engine)).
Implicit Types (o : @operand Engine).

Lemma _append_not_an_event l o σ :
  not_an_event o →
  _append l o σ =
    (Raise (TypeError
       ("Argument event should be Events or CallableEventWithFilter, got: "
        +:+ type_repr o)), σ).
Proof. intros Ho. destruct o as [e| | |]; [by destruct (Ho e)|done..]. Qed.

(** X10: [l | e1 | ... | ek] on an existing list appends in place: the
    result is the list [l] itself, now holding its former elements followed
    by e1, ..., ek, and no other list has changed. *)
Theorem or_extends_in_place l es rest σ :
  σ !! l = Some es →
  ∃ σ', or_rest l (OEvent <$> rest) σ = (Ok l, σ')
        ∧ EventsList__iter__ l σ' = es ++ rest
        ∧ EventsList__len__ l σ' = (length es + length rest)%nat
        ∧ ∀ l', l' ≠ l → σ' !! l' = σ !! l'.
Proof.
  intros Hl. exists (<[l := es ++ rest]> σ).
  split; [by apply or_rest_events|].
  unfold EventsList__iter__, EventsList__len__, _events.
  rewrite lookup_insert_eq. cbn. rewrite length_app.
  split; [done|]. split; [done|].
  intros l' Hl'. by rewrite lookup_insert_ne.
Qed.

(** X11: a chain stops at the first operand that is not an event, with
    TypeError, and the events before it stay appended. *)
Theorem or_stops_at_first_non_event l es pre o post σ :
  σ !! l = Some es → not_an_event o →
  or_rest l ((OEvent <$> pre) ++ o :: post) σ =
    (Raise (TypeError
       ("Argument event should be Events or CallableEventWithFilter, got: "
        +:+ type_repr o)),
     <[l := es ++ pre]> σ).
Proof.
  intros Hl Ho. revert es σ Hl.
  induction pre as [|e pre IH]; intros es σ Hl.
  - cbn [fmap list_fmap app or_rest]. unfold EventsList__or__.
    rewrite _append_not_an_event by done.
    by rewrite app_nil_r, insert_id.
  - cbn [fmap list_fmap app or_rest]. unfold EventsList__or__.
    cbn [_append]. unfold _events. rewrite Hl. cbn [default from_option id].
    rewrite (IH (es ++ [e])) by apply lookup_insert_eq.
    by rewrite insert_insert_eq, <- app_assoc.
Qed.

(** X12: an event combined with anything that is not an event raises
    TypeError, and the lists that existed are as they were. *)
Theorem or_event_with_non_event e o σ :
  not_an_event o →
  ∃ msg σ', __or__ e o σ = (Raise (TypeError msg), σ')
            ∧ ∀ l, is_Some (σ !! l) → σ' !! l = σ !! l.
Proof.
  intros Ho. unfold __or__, EventsList__init__, EventsList__or__.
  cbn [_append]. rewrite _append_not_an_event by done.
  do 2 eexists. split; [done|].
  intros l Hl. rewrite !lookup_insert_ne; [done|..];
    intros <-; apply elem_of_dom in Hl; by apply is_fresh in Hl.
Qed.

(** X13: indexing succeeds exactly for -n <= i < n, n the length; it then
    yields the element at position i mod n, so that negative indices count
    from the end. Outside this range it raises IndexError. *)
Theorem getitem_bounds l (i : Z) σ :
  let n := Z.of_nat (EventsList__len__ l σ) in
  (- n ≤ i < n →
   ∃ e, EventsList__getitem__ l i σ = Ok e
        ∧ EventsList__iter__ l σ !! Z.to_nat (i `mod` n) = Some e)
  ∧ (¬ (- n ≤ i < n) →
     EventsList__getitem__ l i σ =
       Raise (IndexError "list index out of range")).
Proof.
  unfold EventsList__len__, EventsList__iter__, EventsList__getitem__.
  cbn zeta. set (es := _events l σ). split.
  - intros Hi. destruct (decide (i < 0)) as [Hneg|Hpos].
    + rewrite (bool_decide_eq_true_2 (i < 0)) by done.
      rewrite bool_decide_eq_true_2 by lia.
      replace (i `mod` Z.of_nat (length es)) with (i + Z.of_nat (length es)).
      2:{ apply Z.mod_unique with (-1); lia. }
      destruct (es !! Z.to_nat (i + Z.of_nat (length es))) as [e|] eqn:He;
        [by exists e|].
      apply lookup_ge_None in He. lia.
    + rewrite (bool_decide_eq_false_2 (i < 0)) by done.
      rewrite bool_decide_eq_true_2 by lia.
      rewrite Z.mod_small by lia.
      destruct (es !! Z.to_nat i) as [e|] eqn:He; [by exists e|].
      apply lookup_ge_None in He. lia.
  - intros Hi. destruct (decide (i < 0)) as [Hneg|Hpos].
    + rewrite (bool_decide_eq_true_2 (i < 0)) by done.
      by rewrite bool_decide_eq_false_2 by lia.
    + rewrite (bool_decide_eq_false_2 (i < 0)) by done.
      rewrite bool_decide_eq_true_2 by lia.
      destruct (es !! Z.to_nat i) as [e|] eqn:He; [|done].
      apply lookup_lt_Some in He. lia.
Qed.

End ListMore.

(** ** Removable handles: what a removal leaves behind *)

Section HandleMore.

Context {Engine Handler : Type} `{!@EngineMethods Engine Handler}.
Implicit Types (h : Handler) (eng : Engine).
Implicit Types (self : @RemovableEventHandle Engine).
Implicit Types (w : @world Engine Handler).

(** [remove] changes at most the engine the handle points to: the
    handlers, the event lists and every other engine are as before, and no
    engine appears or disappears. *)
Lemma remove_frame self w :
  let w' := (remove self w).2 in
  handlers w' = handlers w
  ∧ events_lists w' = events_lists w
  ∧ dom (engines w') = dom (engines w)
  ∧ ∀ a, a ≠ engine self → engines w' !! a = engines w !! a.
Proof.
  cbn zeta.
  destruct (handlers w !! handler self) as [h|] eqn:Hh;
    [destruct (engines w !! engine self) as [eng|] eqn:Heng|].
  - destruct (remove_alive self w h eng Hh Heng) as (r & eng' & -> & _).
    cbn. split; [done|]. split; [done|]. split.
    + by apply dom_insert_lookup_L.
    + intros a Ha. by rewrite lookup_insert_ne.
  - rewrite remove_dead by auto. done.
  - rewrite remove_dead by auto. done.
Qed.

Context `{!EngineLaws}.

(** Through a pass that does not raise, a handler that was detached from
    an event stays detached from it. *)
Lemma removal_keeps_detached h es eng eng' e :
  removal h es eng (Ok tt, eng') →
  has_event_handler eng h e = false →
  has_event_handler eng' h e = false.
Proof.
  intros Hpass. remember (Ok tt, eng') as out eqn:Hout.
  revert eng' Hout.
  induction Hpass as [eng|e0 es eng out Hhas _ IH
                      |e0 es eng eng1 out Hhas Hrm _ IH
                      |e0 es eng eng1 x Hhas Hrm]; intros eng' Hout He.
  - by injection Hout as <-.
  - by apply IH.
  - apply IH; [done|]. by eapply detached_stays.
  - discriminate.
Qed.

Lemma removal_detaches h es eng r eng' :
  removal h es eng (r, eng') →
  r = Ok tt ∧ ∀ e, e ∈ es → has_event_handler eng' h e = false.
Proof.
  intros Hpass. pose proof Hpass as Hr.
  apply removal_returns in Hr; [|by apply @remove_where_attached].
  subst r. split; [done|].
  remember (Ok tt, eng') as out eqn:Hout. revert eng' Hout.
  induction Hpass as [eng|e0 es eng out Hhas Hrest IH
                      |e0 es eng eng1 out Hhas Hrm Hrest IH
                      |e0 es eng eng1 x Hhas Hrm]; intros eng' Hout e He.
  - by apply elem_of_nil in He.
  - apply elem_of_cons in He as [->|He]; [|by eapply IH].
    subst out. by eapply removal_keeps_detached.
  - apply elem_of_cons in He as [->|He]; [|by eapply IH].
    subst out. eapply removal_keeps_detached; [done|].
    by eapply removed_is_detached.
  - discriminate.
Qed.

Lemma removal_nothing_attached h es eng :
  (∀ e, e ∈ es → has_event_handler eng h e = false) →
  removal h es eng (Ok tt, eng).
Proof.
  induction es as [|e es IH]; intros Hes; [constructor|].
  apply removal_skip.
  - apply Hes. by left.
  - apply IH. intros e' He'. apply Hes. by right.
Qed.

(** X14: with an engine that keeps its word, and handler and engine
    alive, [remove] returns, and afterwards the engine has the handler
    under none of the events the handle was registered for. *)
Theorem remove_detaches self w h eng :
  handlers w !! handler self = Some h →
  engines w !! engine self = Some eng →
  ∃ eng',
    remove self w =
      (Ok tt, World (handlers w) (<[engine self := eng']> (engines w))
                (events_lists w))
    ∧ ∀ e, e ∈ registered self w → has_event_handler eng' h e = false.
Proof.
  intros Hh Heng.
  destruct (remove_alive self w h eng Hh Heng) as (r & eng' & Hrun & Hpass).
  apply removal_detaches in Hpass as [-> Hdet]. by exists eng'.
Qed.

(** X15: with such an engine a second [remove] does nothing: it returns
    and leaves the world as the first left it. *)
Theorem remove_twice self w r w' :
  remove self w = (r, w') →
  remove self w' = (Ok tt, w').
Proof.
  intros Hrun.
  destruct (handlers w !! handler self) as [h|] eqn:Hh;
    [destruct (engines w !! engine self) as [eng|] eqn:Heng|].
  - destruct (remove_alive self w h eng Hh Heng) as (r1 & eng' & Hrun1 & Hpass).
    rewrite Hrun in Hrun1. injection Hrun1 as -> ->.
    apply removal_detaches in Hpass as [_ Hdet].
    set (w' := World (handlers w) (<[engine self := eng']> (engines w))
                 (events_lists w)).
    assert (handlers w' !! handler self = Some h) as Hh' by done.
    assert (engines w' !! engine self = Some eng') as Heng'
      by apply lookup_insert_eq.
    destruct (remove_alive self w' h eng' Hh' Heng')
      as (r2 & eng2 & -> & Hpass2).
    assert ((r2, eng2) = (Ok tt, eng')) as [= -> ->].
    { eapply removal_functional; [done|].
      by apply removal_nothing_attached. }
    unfold w'. cbn. by rewrite insert_insert_eq.
  - rewrite remove_dead in Hrun by auto. injection Hrun as <- <-.
    apply remove_dead. auto.
  - rewrite remove_dead in Hrun by auto. injection Hrun as <- <-.
    apply remove_dead. auto.
Qed.

End HandleMore.

(** The registry of the samples keeps its word. *)
Lemma registry_laws : @EngineLaws Sample.registry nat Sample.registry_methods.
Proof.
  split; cbn; unfold Sample.remove_handler, Sample.has_handler.
  - intros eng h e ->. by eexists.
  - intros eng eng' h e. case_bool_decide as Hin; [|discriminate].
    intros [= <-]. apply bool_decide_eq_false_2.
    rewrite list_elem_of_In, filter_In. intros [_ Hne].
    by rewrite bool_decide_eq_true_2 in Hne.
  - intros eng eng' h e e' Hout%bool_decide_eq_false_1.
    case_bool_decide as Hin; [|discriminate].
    intros [= <-]. apply bool_decide_eq_false_2.
    rewrite list_elem_of_In, filter_In. intros [Hin' _].
    by apply list_elem_of_In in Hin'.
Qed.

(** ** State *)

Section StateFacts.

Context {Engine : Type}.
Variable hash : string → Z.
Variable repr_callable : @callable Engine → string.
Variable class_attrs : gmap string attr.

Implicit Types (d eta : list (@CallableEventWithFilter Engine * string)).
Implicit Types (self : gmap string attr) (k : @key Engine).
Implicit Types (kwargs : list (string * attr)).

Local Abbreviation get_value :=
  (get_event_attrib_value hash repr_callable class_attrs).
Local Abbreviation update := (_update_attrs (Engine := Engine) class_attrs).
Local Abbreviation init := (State__init__ (Engine := Engine) class_attrs).

(** Hashing sends a key to the hash of the name it stands for. *)
Lemma key_hash_names k n : names k n → key_hash hash k = Ok (hash n).
Proof.
  destruct k as [e|s'|cls h]; cbn; [|by intros ->|done].
  unfold __hash__. by intros ->.
Qed.

(** Same hash or not, the entry found is the first one of that name. *)
Lemma dict_lookup_names d k n :
  named_keys d → names k n →
  dict_lookup hash d (hash n) k = Ok (attr_of_name d n).
Proof.
  intros Hd Hk. induction Hd as [|[stored v] d [m Hm] _ IH]; [done|].
  cbn [dict_lookup attr_of_name]. cbn in Hm.
  unfold __hash__. rewrite Hm. cbn.
  assert (__eq__ stored (key_operand k) = Ok (bool_decide (m = n))) as Heq.
  { destruct k as [e|s'|cls h]; cbn in Hk |- *; [|subst s'|done];
      unfold name; by rewrite Hm, ?Hk. }
  rewrite Heq. cbn.
  destruct (decide (m = n)) as [->|Hne].
  - by rewrite !bool_decide_eq_true_2.
  - rewrite (bool_decide_eq_false_2 (m = n)) by done.
    rewrite (bool_decide_eq_false_2 (Some m = Some n)) by congruence.
    rewrite IH. by destruct (bool_decide (hash m = hash n)).
Qed.

Lemma dict_get_names d k n :
  named_keys d → names k n → dict_get hash d k = Ok (attr_of_name d n).
Proof.
  intros Hd Hk. unfold dict_get. rewrite (key_hash_names _ _ Hk). cbn.
  by apply dict_lookup_names.
Qed.

Lemma event_to_attr_named : named_keys (@event_to_attr Engine).
Proof. repeat constructor; by eexists. Qed.











Lemma get_value_found eta self k n a :
  named_keys eta → names k n → attr_of_name eta n = Some a →
  get_value eta self k =
    match getattr class_attrs self a with
    | Ok v => Return v
    | Raise x => Throw (Builtin x)
    end.
Proof.
  intros Heta Hk Ha. unfold get_event_attrib_value.
  by rewrite (dict_get_names _ _ _ Heta Hk), Ha.
Qed.

Lemma key_str_names k n : names k n → ∃ s, key_str repr_callable k = Ok s.
Proof.
  destruct k as [e|s'|cls h]; cbn; [|by eexists|done].
  unfold __str__, name. intros ->. by eexists.
Qed.

Lemma get_value_unknown eta self k n :
  named_keys eta → names k n → attr_of_name eta n = None →
  ∃ msg, get_value eta self k = Throw (RuntimeError msg).
Proof.
  intros Heta Hk Ha. unfold get_event_attrib_value.
  rewrite (dict_get_names _ _ _ Heta Hk), Ha.
  destruct (key_str_names _ _ Hk) as [s' ->]. by eexists.
Qed.

(** X17: the attribute read for an event is decided by the name alone: an
    event obtained by a call, and the name as a string, read what the
    registered event reads. *)
Theorem get_event_attrib_value_by_name eta self k k' n :
  named_keys eta → names k n → names k' n →
  is_Some (attr_of_name eta n) →
  get_value eta self k = get_value eta self k'.
Proof.
  intros Heta Hk Hk' [a Ha].
  by rewrite (get_value_found _ _ _ _ _ Heta Hk Ha),
    (get_value_found _ _ _ _ _ Heta Hk' Ha).
Qed.


(** X19: an event whose name no registered event has is unknown: the
    lookup raises RuntimeError. Of the built-in events this is the case
    for the four that count neither iterations nor epochs. *)
Theorem unknown_event_raises_RuntimeError self :
  (∀ eta k n,
     named_keys eta → names k n → attr_of_name eta n = None →
     ∃ msg, get_value eta self k = Throw (RuntimeError msg))
  ∧ Forall (fun E => ∃ msg, get_value event_to_attr self (KEvent E)
                            = Throw (RuntimeError msg))
      [Events.EXCEPTION_RAISED; Events.DATALOADER_STOP_ITERATION;
       Events.TERMINATE; Events.TERMINATE_SINGLE_EPOCH].
Proof.
  split.
  - intros eta k n. apply get_value_unknown.
  - repeat apply Forall_cons_2; [..|apply Forall_nil_2].
    all: eapply get_value_unknown;
      [apply event_to_attr_named|reflexivity|reflexivity].
Qed.



End StateFacts.

(** ** Horovod: which way a model comes into being *)

Section HorovodFacts.

Context {Hvd Kwargs : Type}.
Variable hvd_rank : Hvd → result Z.
Variable new_model :
  bool → option Kwargs → Hvd → outcome _HorovodDistModel * Hvd.

Local Abbreviation from_context := (create_from_context hvd_rank new_model).
Local Abbreviation from_backend := (create_from_backend hvd_rank new_model).

(** X21: a backend other than horovod is refused with ValueError before
    the library is asked anything: its state is untouched and no model is
    made. *)
Theorem create_from_backend_refuses_other_backends backend kwargs σ :
  backend ≠ HOROVOD →
  ∃ msg, from_backend backend kwargs σ
         = (Throw (Builtin (ValueError msg)), σ).
Proof.
  intros Hne. unfold create_from_backend, available_backends.
  rewrite bool_decide_eq_false_2; [by eexists|].
  by intros ->%list_elem_of_singleton.
Qed.

(** X22: the two ways exclude each other. While the library is
    initialised, with a rank above -1, the context yields a model and the
    backend way raises RuntimeError and changes nothing; while it is not,
    the library raising ValueError or the rank being -1 or less, the
    context yields None and changes nothing, and the backend way
    initialises. *)
Theorem create_from_context_or_backend kwargs σ :
  (∀ x, hvd_rank σ = Raise x → is_ValueError (hvd_rank σ) = true) →
  ((∃ r, hvd_rank σ = Ok r ∧ -1 < r)
   ∧ from_context σ =
       match new_model false None σ with
       | (Return m, σ') => (Return (Some m), σ')
       | (Throw x, σ') => (Throw x, σ')
       end
   ∧ ∃ msg, from_backend HOROVOD kwargs σ = (Throw (RuntimeError msg), σ))
  ∨ ((∀ r, hvd_rank σ = Ok r → r ≤ -1)
     ∧ from_context σ = (Return None, σ)
     ∧ from_backend HOROVOD kwargs σ = new_model true (Some kwargs) σ).
Proof.
  intros Hlib. unfold create_from_context, create_from_backend,
    available_backends, _get_hvd_rank.
  rewrite (bool_decide_eq_true_2 (HOROVOD ∈ [HOROVOD])) by by left.
  cbn [negb]. destruct (hvd_rank σ) as [r|x] eqn:Hr.
  - destruct (decide (-1 < r)) as [Hinit|Hnot].
    + left. rewrite !bool_decide_eq_true_2 by done. cbn [negb].
      split; [by exists r|]. split; [done|]. by eexists.
    + right. rewrite !bool_decide_eq_false_2 by done. cbn [negb].
      split; [|done]. intros r' [= <-]. lia.
  - right. specialize (Hlib x eq_refl). destruct x; try discriminate.
    rewrite !bool_decide_eq_false_2 by lia. cbn [negb].
    split; [|done]. intros r' [=].
Qed.

End HorovodFacts.

(** ** The further properties on the samples *)

Lemma call_does_not_stack_witness :
  __call__ Sample.bind_positional
    (Event (every_event_filter 3) "iteration_started"
       (Some "ITERATION_STARTED")) PyNone PyNone (PyInt 5)
  = __call__ Sample.bind_positional (@Events.ITERATION_STARTED unit)
      PyNone PyNone (PyInt 5).
Proof.
  apply (call_does_not_stack Sample.bind_positional
           Events.ITERATION_STARTED PyNone (PyInt 3) PyNone).
  reflexivity.
Defined.

Lemma call_result_shape_witness :
  let d := @Event unit (every_event_filter 3) "iteration_started"
             (Some "ITERATION_STARTED") in
  _value_ d = _value_ (@Events.ITERATION_STARTED unit)
  ∧ _name_ d = _name_ (@Events.ITERATION_STARTED unit)
  ∧ is_Some (_name_ (@Events.ITERATION_STARTED unit))
  ∧ (filter d = default_event_filter
     ∨ (∃ N, 1 < N ∧ filter d = every_event_filter N)
     ∨ (∃ N, 0 < N ∧ filter d = once_event_filter N)
     ∨ PyNone = PyCallable (filter d)).
Proof.
  apply (call_result_shape Sample.bind_positional
           Events.ITERATION_STARTED PyNone (PyInt 3) PyNone).
  reflexivity.
Defined.

Lemma built_filters_never_raise_witness :
  ∃ r, fn_call (every_event_filter 3) tt 7 = Ok r.
Proof.
  refine (built_filters_never_raise Sample.bind_positional
            Events.ITERATION_STARTED (PyInt 3) PyNone
            (Event (every_event_filter 3) "iteration_started"
               (Some "ITERATION_STARTED")) _ tt 7).
  reflexivity.
Defined.

Lemma call_not_callable_raises_TypeError_witness :
  __call__ Sample.bind_positional (@Events.STARTED unit)
    (PyStr "often") (PyInt 0) (PyObject "<class 'float'>")
  = Raise (TypeError "Argument event_filter should be a callable").
Proof.
  apply (call_not_callable_raises_TypeError Sample.bind_positional);
    reflexivity.
Defined.

Lemma every_accepts_one_per_window_witness :
  ∃ e, (10 ≤ e < 10 + 3 ∧ fn_call (every_event_filter 3) tt e = Ok true)
       ∧ ∀ e', 10 ≤ e' < 10 + 3 →
               fn_call (every_event_filter 3) tt e' = Ok true → e' = e.
Proof. apply (every_accepts_one_per_window 3 10 tt). lia. Defined.

Lemma call_rejects_none_or_two_witness :
  __call__ Sample.bind_positional (@Events.STARTED unit)
    (PyCallable Sample.custom_event_filter) PyNone (PyInt 3)
  = Raise (ValueError "Only one of the input arguments should be specified").
Proof.
  apply (call_rejects_none_or_two Sample.bind_positional). reflexivity.
Defined.

Lemma call_with_all_three_keeps_once_witness :
  __call__ Sample.bind_positional (@Events.ITERATION_STARTED unit)
    (PyCallable Sample.custom_event_filter) (PyInt 2) (PyInt 3)
  = __call__ Sample.bind_positional Events.ITERATION_STARTED
      PyNone PyNone (PyInt 3).
Proof.
  apply (call_with_all_three_keeps_once Sample.bind_positional
           Events.ITERATION_STARTED "ITERATION_STARTED");
    [apply bind_positional_fits | reflexivity | lia | lia].
Defined.

Lemma unnamed_event_is_unusable_witness :
  let a := @new_event unit "started" None None in
  (∀ other, ∃ x, __eq__ a other = Raise x)
  ∧ (∀ b, ∃ msg, __eq__ b (OEvent a) = Raise (AttributeError msg))
  ∧ (∃ msg, __hash__ Sample.code_sum a = Raise (AttributeError msg))
  ∧ (∀ x y z, ∃ r, __call__ Sample.bind_positional a x y z = Raise r).
Proof.
  apply (unnamed_event_is_unusable Sample.bind_positional Sample.code_sum).
  reflexivity.
Defined.

Lemma or_extends_in_place_witness :
  ∃ σ', or_rest 0 (OEvent <$> [@Events.TERMINATE Sample.registry])
          (events_lists Sample.sample_world) = (Ok 0%nat, σ')
        ∧ EventsList__iter__ 0 σ' =
            [Events.STARTED; Events.EPOCH_STARTED; Events.COMPLETED]
            ++ [Events.TERMINATE]
        ∧ EventsList__len__ 0 σ' = (3 + 1)%nat
        ∧ ∀ l', l' ≠ 0%nat →
                σ' !! l' = events_lists Sample.sample_world !! l'.
Proof.
  apply (or_extends_in_place 0
           [Events.STARTED; Events.EPOCH_STARTED; Events.COMPLETED]
           [Events.TERMINATE] (events_lists Sample.sample_world)).
  reflexivity.
Defined.

Lemma or_stops_at_first_non_event_witness :
  or_rest 0 ((OEvent <$> [@Events.TERMINATE Sample.registry])
             ++ OStr "completed" :: [OEvent Events.COMPLETED])
    (events_lists Sample.sample_world)
  = (Raise (TypeError
       ("Argument event should be Events or CallableEventWithFilter, got: "
        +:+ type_repr (@OStr Sample.registry "completed"))),
     <[0%nat := [Events.STARTED; Events.EPOCH_STARTED; Events.COMPLETED]
                ++ [Events.TERMINATE]]>
       (events_lists Sample.sample_world)).
Proof.
  apply (or_stops_at_first_non_event 0
           [Events.STARTED; Events.EPOCH_STARTED; Events.COMPLETED]
           [Events.TERMINATE] (OStr "completed")
           [OEvent Events.COMPLETED] (events_lists Sample.sample_world)).
  - reflexivity.
  - intros e. discriminate.
Defined.

Lemma or_event_with_non_event_witness :
  ∃ msg σ',
    __or__ (@Events.STARTED Sample.registry) (OEventsList 0)
      (events_lists Sample.sample_world) = (Raise (TypeError msg), σ')
    ∧ ∀ l, is_Some (events_lists Sample.sample_world !! l) →
           σ' !! l = events_lists Sample.sample_world !! l.
Proof.
  apply (or_event_with_non_event Events.STARTED (OEventsList 0)).
  intros e. discriminate.
Defined.

Lemma remove_detaches_witness :
  ∃ eng',
    remove (Handle (OEventsList 0) 1%nat 0%nat) Sample.sample_world =
      (Ok tt,
       World (handlers Sample.sample_world)
         (<[0%nat := eng']> (engines Sample.sample_world))
         (events_lists Sample.sample_world))
    ∧ ∀ e, e ∈ registered (Handle (OEventsList 0) 1%nat 0%nat)
                 Sample.sample_world →
           has_event_handler eng' 7%nat e = false.
Proof.
  apply (@remove_detaches _ _ _ registry_laws
           (Handle (OEventsList 0) 1%nat 0%nat) Sample.sample_world 7%nat
           [("STARTED", 7%nat); ("COMPLETED", 8%nat); ("COMPLETED", 7%nat)]);
    reflexivity.
Defined.

Lemma remove_twice_witness :
  let self := @Handle Sample.registry (OEvent Events.STARTED) 1%nat 0%nat in
  remove self (remove self Sample.sample_world).2
  = (Ok tt, (remove self Sample.sample_world).2).
Proof.
  apply (@remove_twice _ _ _ registry_laws
           (Handle (OEvent Events.STARTED) 1%nat 0%nat) Sample.sample_world
           (remove (Handle (OEvent Events.STARTED) 1%nat 0%nat)
              Sample.sample_world).1).
  apply surjective_pairing.
Defined.

Lemma get_event_attrib_value_by_name_witness :
  let self := @State__init__ unit Sample.State_class_attrs event_to_attr
                [("iteration", AInt 5)] in
  get_event_attrib_value Sample.code_sum Sample.repr_function
    Sample.State_class_attrs event_to_attr self
    (KEvent (Event (every_event_filter 3) "iteration_started"
               (Some "ITERATION_STARTED")))
  = get_event_attrib_value Sample.code_sum Sample.repr_function
      Sample.State_class_attrs event_to_attr self
      (KStr "ITERATION_STARTED").
Proof.
  apply (get_event_attrib_value_by_name Sample.code_sum Sample.repr_function
           Sample.State_class_attrs event_to_attr _ _ _ "ITERATION_STARTED").
  - apply event_to_attr_named.
  - reflexivity.
  - reflexivity.
  - eexists. reflexivity.
Defined.



Lemma create_from_backend_refuses_other_backends_witness :
  ∃ msg, create_from_backend Sample.rank_of Sample.model_of "gloo" tt None
         = (Throw (Builtin (ValueError msg)), None).
Proof.
  apply (create_from_backend_refuses_other_backends Sample.rank_of
           Sample.model_of "gloo" tt None).
  discriminate.
Defined.

Lemma create_from_context_or_backend_witness :
  let σ : Sample.hvd := Some 0 in
  ((∃ r, Sample.rank_of σ = Ok r ∧ -1 < r)
   ∧ create_from_context Sample.rank_of Sample.model_of σ =
       match Sample.model_of false None σ with
       | (Return m, σ') => (Return (Some m), σ')
       | (Throw x, σ') => (Throw x, σ')
       end
   ∧ ∃ msg, create_from_backend Sample.rank_of Sample.model_of HOROVOD tt σ
            = (Throw (RuntimeError msg), σ))
  ∨ ((∀ r, Sample.rank_of σ = Ok r → r ≤ -1)
     ∧ create_from_context Sample.rank_of Sample.model_of σ
       = (Return None, σ)
     ∧ create_from_backend Sample.rank_of Sample.model_of HOROVOD tt σ
       = Sample.model_of true (Some tt) σ).
Proof.
  apply (create_from_context_or_backend Sample.rank_of Sample.model_of tt
           (Some 0)).
  intros x. discriminate.
Defined.
